(** * SnipsConsoleManager: a shallow embedding and its verified properties

    The embedded program is [core/snips/SnipsConsoleManager.py]: the login
    flow against the Snips console, the request sender with its 401
    handling, the training poll loop and the download task; and, at the
    end of each part, the decoding loop of
    [core/asr/model/PocketSphinxASR.py].

    The manager object, the configuration store, the event registry of the
    thread manager and the record of everything sent to the outside are one
    explicit [State], threaded through a state-and-exception monad.  The
    remote service, the uuid generator and the disk are an environment
    [World] that the functions consult but never change. *)

From Stdlib Require Import ZArith Lia Ascii String.
From stdpp Require Import base option list gmap strings.

Local Open Scope string_scope.
Local Open Scope list_scope.

(** ** Data model *)

(** [SnipsConsoleUser]: the two attributes the manager reads. *)
Record SnipsConsoleUser := {
  userId    : string;
  userEmail : string
}.

(** [SnipsTrainingType] and the [value] of each member, as sent in the
    body of a training request. *)
Inductive SnipsTrainingType := NLU | ASR.

Definition SnipsTrainingType_value (t : SnipsTrainingType) : string :=
  match t with NLU => "nlu" | ASR => "asr" end.

(** One sub-model of a [TrainingStatusResponse]. *)
Record TrainingStatus := {
  needTraining : bool;
  inProgress   : bool
}.

Record TrainingStatusResponse := {
  nluStatus : TrainingStatus;
  asrStatus : TrainingStatus
}.

(** A request as handed to [requests.request]: the headers are the
    manager's header dict as it is at the moment of the call. *)
Record Request := {
  rq_method  : string;
  rq_url     : string;
  rq_params  : option (gmap string string);
  rq_json    : option (gmap string string);
  rq_headers : gmap string string
}.

(** A [requests.Response], seen through the accessors the manager applies
    to it.  Each [json_*] field is the value of the corresponding Python
    expression, [None] when evaluating that expression raises:
    [json_user] is [SnipsConsoleUser(req.json()['user'])], [json_token] is
    [req.json()['token']] and [json_training] is
    [TrainingStatusResponse(req.json())]. *)
Record Response := {
  status_code   : Z;
  headers       : gmap string string;
  json_user     : option SnipsConsoleUser;
  json_token    : option (gmap string string);
  json_training : option TrainingStatusResponse;
  content       : string
}.

(** What [requests.request] does: it raises, or it returns a response. *)
Inductive Answer :=
| ConnectionError
| Reply (r : Response).

(** What the disk does with [Path.write_bytes(data)], which opens the
    file in mode ['wb'] and then writes: the open raises, and the file is
    as it was; or the open has truncated the file and the write (or the
    close that flushes it) raises, with the first [n] bytes of [data] in
    the file; or all the bytes are written. *)
Inductive WriteOutcome :=
| OpenFails
| WriteFails (n : nat)
| Written.

(** The environment: the remote service answers a request knowing the
    requests that came before it; [uuid4] is indexed by the number of
    requests sent so far; [disk] tells how writing these bytes to the
    temporary file goes. *)
Record World := {
  http  : list Request → Request → Answer;
  uuid4 : nat → string;
  disk  : string → WriteOutcome
}.

(** The Python exceptions that occur in the embedded code.  [ApiError c]
    is the [Exception] that [_trainingStatus] raises on a 4xx status [c];
    [Exception_ msg] is a plain [Exception] with its message. *)
Inductive exn :=
| KeyError (key : string)
| AttributeError (attr : string)
| JSONError
| RequestException
| OSError
| ApiError (status : Z)
| Exception_ (msg : string).

(** The manager together with the collaborators it mutates.
    [snipsConf] is the Snips configuration keyed by (parent, key);
    [aliceConf] the Alice configuration; [events] the thread manager's
    events with their flag; [sent] every request handed to the transport,
    oldest first; [cleared] the names of the events on which [clear()] was
    called, oldest first; [broadcasts] the methods broadcast to the
    modules; [tmpfile] the bytes of [assistant.zip] in the temporary
    directory. *)
Record State := {
  _connected : bool;
  _tries     : Z;
  _user      : option SnipsConsoleUser;
  _headers   : gmap string string;
  isActive   : bool;
  snipsConf  : gmap (string * string) string;
  aliceConf  : gmap string string;
  activeSnipsProjectId : string;
  events     : gmap string bool;
  sent       : list Request;
  cleared    : list string;
  broadcasts : list string;
  tmpfile    : option string
}.

Definition set_connected (b : bool) (s : State) : State :=
  {| _connected := b; _tries := _tries s; _user := _user s;
     _headers := _headers s; isActive := isActive s;
     snipsConf := snipsConf s; aliceConf := aliceConf s;
     activeSnipsProjectId := activeSnipsProjectId s;
     events := events s; sent := sent s; cleared := cleared s;
     broadcasts := broadcasts s; tmpfile := tmpfile s |}.

Definition set_tries (n : Z) (s : State) : State :=
  {| _connected := _connected s; _tries := n; _user := _user s;
     _headers := _headers s; isActive := isActive s;
     snipsConf := snipsConf s; aliceConf := aliceConf s;
     activeSnipsProjectId := activeSnipsProjectId s;
     events := events s; sent := sent s; cleared := cleared s;
     broadcasts := broadcasts s; tmpfile := tmpfile s |}.

Definition set_user (u : option SnipsConsoleUser) (s : State) : State :=
  {| _connected := _connected s; _tries := _tries s; _user := u;
     _headers := _headers s; isActive := isActive s;
     snipsConf := snipsConf s; aliceConf := aliceConf s;
     activeSnipsProjectId := activeSnipsProjectId s;
     events := events s; sent := sent s; cleared := cleared s;
     broadcasts := broadcasts s; tmpfile := tmpfile s |}.

Definition set_headers (h : gmap string string) (s : State) : State :=
  {| _connected := _connected s; _tries := _tries s; _user := _user s;
     _headers := h; isActive := isActive s;
     snipsConf := snipsConf s; aliceConf := aliceConf s;
     activeSnipsProjectId := activeSnipsProjectId s;
     events := events s; sent := sent s; cleared := cleared s;
     broadcasts := broadcasts s; tmpfile := tmpfile s |}.

Definition set_isActive (b : bool) (s : State) : State :=
  {| _connected := _connected s; _tries := _tries s; _user := _user s;
     _headers := _headers s; isActive := b;
     snipsConf := snipsConf s; aliceConf := aliceConf s;
     activeSnipsProjectId := activeSnipsProjectId s;
     events := events s; sent := sent s; cleared := cleared s;
     broadcasts := broadcasts s; tmpfile := tmpfile s |}.

Definition set_snipsConf (c : gmap (string * string) string) (s : State) : State :=
  {| _connected := _connected s; _tries := _tries s; _user := _user s;
     _headers := _headers s; isActive := isActive s;
     snipsConf := c; aliceConf := aliceConf s;
     activeSnipsProjectId := activeSnipsProjectId s;
     events := events s; sent := sent s; cleared := cleared s;
     broadcasts := broadcasts s; tmpfile := tmpfile s |}.

Definition set_events (e : gmap string bool) (s : State) : State :=
  {| _connected := _connected s; _tries := _tries s; _user := _user s;
     _headers := _headers s; isActive := isActive s;
     snipsConf := snipsConf s; aliceConf := aliceConf s;
     activeSnipsProjectId := activeSnipsProjectId s;
     events := e; sent := sent s; cleared := cleared s;
     broadcasts := broadcasts s; tmpfile := tmpfile s |}.

Definition set_sent (l : list Request) (s : State) : State :=
  {| _connected := _connected s; _tries := _tries s; _user := _user s;
     _headers := _headers s; isActive := isActive s;
     snipsConf := snipsConf s; aliceConf := aliceConf s;
     activeSnipsProjectId := activeSnipsProjectId s;
     events := events s; sent := l; cleared := cleared s;
     broadcasts := broadcasts s; tmpfile := tmpfile s |}.

Definition set_cleared (l : list string) (s : State) : State :=
  {| _connected := _connected s; _tries := _tries s; _user := _user s;
     _headers := _headers s; isActive := isActive s;
     snipsConf := snipsConf s; aliceConf := aliceConf s;
     activeSnipsProjectId := activeSnipsProjectId s;
     events := events s; sent := sent s; cleared := l;
     broadcasts := broadcasts s; tmpfile := tmpfile s |}.

Definition set_broadcasts (l : list string) (s : State) : State :=
  {| _connected := _connected s; _tries := _tries s; _user := _user s;
     _headers := _headers s; isActive := isActive s;
     snipsConf := snipsConf s; aliceConf := aliceConf s;
     activeSnipsProjectId := activeSnipsProjectId s;
     events := events s; sent := sent s; cleared := cleared s;
     broadcasts := l; tmpfile := tmpfile s |}.

Definition set_tmpfile (f : option string) (s : State) : State :=
  {| _connected := _connected s; _tries := _tries s; _user := _user s;
     _headers := _headers s; isActive := isActive s;
     snipsConf := snipsConf s; aliceConf := aliceConf s;
     activeSnipsProjectId := activeSnipsProjectId s;
     events := events s; sent := sent s; cleared := cleared s;
     broadcasts := broadcasts s; tmpfile := f |}.

(** ** The monad of the embedded code

    A computation runs from a state and either returns a value, raises an
    exception (the state changes made so far are kept, as in Python), or
    is [Unfinished]: the fuel given to a recursion or a loop ran out. *)

Inductive Result (A : Type) :=
| Returned (a : A) (s : State)
| Raised (e : exn) (s : State)
| Unfinished.

Arguments Returned {A} a s.
Arguments Raised {A} e s.
Arguments Unfinished {A}.

Definition M (A : Type) : Type := State → Result A.

Definition ret {A} (a : A) : M A := fun s => Returned a s.

Definition bind {A B} (m : M A) (f : A → M B) : M B :=
  fun s =>
    match m s with
    | Returned a s' => f a s'
    | Raised e s' => Raised e s'
    | Unfinished => Unfinished
    end.

Definition raise {A} (e : exn) : M A := fun s => Raised e s.

(** [try: m  except Exception as e: h e]. *)
Definition try_except {A} (m : M A) (h : exn → M A) : M A :=
  fun s =>
    match m s with
    | Returned a s' => Returned a s'
    | Raised e s' => h e s'
    | Unfinished => Unfinished
    end.

Definition gets {A} (f : State → A) : M A := fun s => Returned (f s) s.

Definition modify (f : State → State) : M unit := fun s => Returned tt (f s).

Declare Scope py_scope.
Delimit Scope py_scope with py.
Notation "'do' x <- m ; k" := (bind m (fun x => k))
  (at level 10, x name, m at level 100, k at level 200) : py_scope.
Notation "'run' m ; k" := (bind m (fun _ => k))
  (at level 10, m at level 100, k at level 200) : py_scope.

(** The state a result carries, when it carries one. *)
Definition final {A} (r : Result A) : option State :=
  match r with
  | Returned _ s => Some s
  | Raised _ s => Some s
  | Unfinished => None
  end.

(** ** Small Python helpers *)

(** Truth value of a string: the empty string is false. *)
Definition truthy (s : string) : bool := negb (String.eqb s "").

(** [s.replace('-', '')]. *)
Fixpoint remove_dashes (s : string) : string :=
  match s with
  | EmptyString => EmptyString
  | String c s' =>
      if Ascii.eqb c "-"%char then remove_dashes s'
      else String c (remove_dashes s')
  end.

(** [d[key]] on a dict: a [KeyError] when the key is missing. *)
Definition getitem (d : gmap string string) (key : string) : M string :=
  match d !! key with
  | Some v => ret v
  | None => raise (KeyError key)
  end.

(** [value of an expression that may raise [e]]. *)
Definition orraise {A} (o : option A) (e : exn) : M A :=
  match o with
  | Some v => ret v
  | None => raise e
  end.

(** ** Collaborators *)

Definition NAME : string := "SnipsConsoleManager".

Definition getSnipsConfiguration (parent key : string) : M string :=
  gets (fun s => default "" (snipsConf s !! (parent, key))).

Definition updateSnipsConfiguration (parent key value : string) : M unit :=
  modify (fun s => set_snipsConf (<[(parent, key) := value]> (snipsConf s)) s).

Definition getAliceConfigByName (name : string) : M string :=
  gets (fun s => default "" (aliceConf s !! name)).

(** [ThreadManager.newEvent(name)]: a fresh event, not set. *)
Definition newEvent (name : string) : M unit :=
  modify (fun s => set_events (<[name := false]> (events s)) s).

Definition event_set (name : string) : M unit :=
  modify (fun s => set_events (<[name := true]> (events s)) s).

Definition event_isSet (name : string) : M bool :=
  gets (fun s => default false (events s !! name)).

(** [event.clear()]: the flag goes down and the call is recorded. *)
Definition event_clear (name : string) : M unit :=
  modify (fun s =>
    set_cleared (cleared s ++ [name])
      (set_events (<[name := false]> (events s)) s)).

(** [ModuleManager.broadcast(method=...)]. *)
Definition broadcast (method : string) : M unit :=
  modify (fun s => set_broadcasts (broadcasts s ++ [method]) s).

(** The four keys under which the console credentials are persisted. *)
Definition credential_keys : list string :=
  ["console_token"; "console_alias"; "console_user_id"; "console_user_email"].

(** ** The manager *)

Local Open Scope py_scope.

(** [__init__]: not connected, no tries, no user, the two fixed headers. *)
Definition init_headers : gmap string string :=
  <["Content-Type" := "application/json"]>
    (<["Accept" := "application/json"]> ∅).

Definition init (snips : gmap (string * string) string)
    (alice : gmap string string) (projectId : string) : State :=
  {| _connected := false; _tries := 0; _user := None;
     _headers := init_headers; isActive := true;
     snipsConf := snips; aliceConf := alice;
     activeSnipsProjectId := projectId;
     events := ∅; sent := []; cleared := []; broadcasts := [];
     tmpfile := None |}.

(** The body of the [if req.status_code == 401] block of [_req], up to
    the call of [_login]: drop the Authorization header, mark the session
    as not connected, blank the four persisted keys. *)
Definition on_unauthorized : M unit :=
  run modify (fun s => set_headers (delete "Authorization" (_headers s)) s);
  run modify (set_connected false);
  run updateSnipsConfiguration "project-alice" "console_token" "";
  run updateSnipsConfiguration "project-alice" "console_alias" "";
  run updateSnipsConfiguration "project-alice" "console_user_id" "";
  updateSnipsConfiguration "project-alice" "console_user_email" "".

(** The url of the access-token exchange; [self._user.userId] raises when
    there is no user. *)
Definition user_id : M string :=
  do u <- gets _user;
  match u with
  | Some u => ret (userId u)
  | None => raise (AttributeError "userId")
  end.

Section Console.

Variable env : World.

(** [_req] and [_login] call each other.  The bodies below take the
    other function as an argument; the knot is tied on a fuel that
    bounds the nesting of logins. *)

(** [_req(url, method, params, data)], with [login] for [self._login]. *)
Definition _req_body (login : M unit) (url method : string)
    (params data : option (gmap string string)) : M Response :=
  fun s =>
    let rq := {| rq_method := method;
                 rq_url := "https://external-gateway.snips.ai" +:+ url;
                 rq_params := params; rq_json := data;
                 rq_headers := _headers s |} in
    let s1 := set_sent (sent s ++ [rq]) s in
    match http env (sent s) rq with
    | ConnectionError => Raised RequestException s1
    | Reply req =>
        if (status_code req =? 401)%Z then
          (run on_unauthorized;
           run login;
           ret req) s1
        else Returned req s1
    end.

(** [_getAccessToken(token)]. *)
Definition _getAccessToken_body (login : M unit) (token : string)
    : M (gmap string string) :=
  do n <- gets (fun s => length (sent s));
  let alias :=
    substring 0 29 (remove_dashes ("projectalice" +:+ uuid4 env n)) in
  run modify (fun s => set_headers (<["Authorization" := token]> (_headers s)) s);
  do uid <- user_id;
  do req <- _req_body login ("/v1/user/" +:+ uid +:+ "/accesstoken") "post"
              None (Some (<["alias" := alias]> ∅));
  if (status_code req =? 201)%Z then orraise (json_token req) JSONError
  else ret ∅.

(** The [try] block of [_login], entered when the authentication
    request returned 200. *)
Definition _login_try (login : M unit) (req : Response) : M unit :=
  do token <- getitem (headers req) "authorization";
  do user <- orraise (json_user req) JSONError;
  run modify (set_user (Some user));
  do accessToken <- _getAccessToken_body login token;
  if bool_decide (accessToken ≠ ∅) then
    do v <- getitem accessToken "token";
    run updateSnipsConfiguration "project-alice" "console_token" v;
    do v <- getitem accessToken "alias";
    run updateSnipsConfiguration "project-alice" "console_alias" v;
    do v <- user_id;
    run updateSnipsConfiguration "project-alice" "console_user_id" v;
    do u <- gets _user;
    do v <- orraise (userEmail <$> u) (AttributeError "userEmail");
    run updateSnipsConfiguration "project-alice" "console_user_email" v;
    do v <- getitem accessToken "token";
    run modify (fun s => set_headers (<["Authorization" := "JWT " +:+ v]> (_headers s)) s);
    run modify (set_connected true);
    modify (set_tries 0)
  else
    raise (Exception_ ("[" +:+ NAME +:+ "] Error fetching JWT console token")).

(** [_login()], with [login] for the nested [self._login]. *)
Definition _login_body (login : M unit) : M unit :=
  run modify (fun s => set_tries (_tries s + 1) s);
  do tries <- gets _tries;
  if (3 <? tries)%Z then
    modify (set_tries 0)
  else
    do email <- getAliceConfigByName "snipsConsoleLogin";
    do password <- getAliceConfigByName "snipsConsolePassword";
    let payload := <["password" := password]> (<["email" := email]> ∅) in
    do req <- _req_body login "/v1/user/auth" "post" None (Some payload);
    if (status_code req =? 200)%Z then
      try_except (_login_try login req)
                 (fun _ => modify (set_connected false))
    else
      modify (set_connected false).

Fixpoint _login (fuel : nat) : M unit :=
  match fuel with
  | O => fun _ => Unfinished
  | S fuel' => _login_body (_login fuel')
  end.

Definition _req (fuel : nat) := _req_body (_login fuel).

Definition _getAccessToken (fuel : nat) := _getAccessToken_body (_login fuel).

Definition loginCredentialsAreConfigured : M bool :=
  do l <- getAliceConfigByName "snipsConsoleLogin";
  do p <- getAliceConfigByName "snipsConsolePassword";
  ret (truthy l && truthy p).

(** [onStart()]. *)
Definition onStart (fuel : nat) : M unit :=
  do tok <- getSnipsConfiguration "project-alice" "console_token";
  if truthy tok then
    run modify (fun s => set_headers (<["Authorization" := "JWT " +:+ tok]> (_headers s)) s);
    do uid <- getSnipsConfiguration "project-alice" "console_user_id";
    do email <- getSnipsConfiguration "project-alice" "console_user_email";
    run modify (set_user (Some {| userId := uid; userEmail := email |}));
    modify (set_connected true)
  else
    do configured <- loginCredentialsAreConfigured;
    if configured then _login fuel
    else modify (set_isActive false).

(** [login()]: refuses when already connected. *)
Definition login (fuel : nat) : M unit :=
  do c <- gets _connected;
  if c then ret tt else _login fuel.

(** [_logout()]. *)
Definition _logout (fuel : nat) : M unit :=
  do uid <- user_id;
  do alias <- getSnipsConfiguration "project-alice" "console_alias";
  run _req fuel ("/v1/user/" +:+ uid +:+ "/accesstoken/" +:+ alias) "get" None None;
  run modify (fun s => set_headers (delete "Authorization" (_headers s)) s);
  run modify (set_connected false);
  run updateSnipsConfiguration "project-alice" "console_token" "";
  run updateSnipsConfiguration "project-alice" "console_alias" "";
  run updateSnipsConfiguration "project-alice" "console_user_id" "";
  updateSnipsConfiguration "project-alice" "console_user_email" "".

(** [_trainAssistant(assistantId, trainingType)]. *)
Definition _trainAssistant (fuel : nat) (assistantId : string)
    (trainingType : SnipsTrainingType) : M unit :=
  run _req fuel ("/v2/training/assistant/" +:+ assistantId) "post" None
        (Some (<["trainingType" := SnipsTrainingType_value trainingType]> ∅));
  ret tt.

(** [_trainingStatus(assistantId)]: a 4xx status raises. *)
Definition _trainingStatus (fuel : nat) (assistantId : string)
    : M TrainingStatusResponse :=
  do req <- _req fuel ("/v2/training/assistant/" +:+ assistantId) "get" None None;
  if (status_code req / 100 =? 4)%Z then
    raise (ApiError (status_code req))
  else
    orraise (json_training req) JSONError.

(** The branch a tick of the poll loop takes on a fetched status: the
    [if]/[elif] chain of [_handleTraining], condition by condition. *)
Inductive Branch := Done | Wait | TrainNLU | TrainASR | Inconsistent.

Definition branch (trainingStatus : TrainingStatusResponse) : Branch :=
  let nlu := nluStatus trainingStatus in
  let asr := asrStatus trainingStatus in
  if negb (needTraining nlu) && negb (inProgress nlu) &&
     negb (needTraining asr) && negb (inProgress asr) then Done
  else if inProgress nlu || inProgress asr then Wait
  else if needTraining nlu && negb (inProgress nlu) &&
          negb (inProgress asr) then TrainNLU
  else if negb (inProgress nlu) && needTraining asr &&
          negb (inProgress asr) then TrainASR
  else Inconsistent.

Definition something_went_wrong : exn :=
  Exception_ ("[" +:+ NAME +:+ "] Something went wrong while training the assistant").

(** One pass through the body of the [while] loop ([time.sleep] has no
    effect on the state). *)
Definition tick (fuel : nat) (assistantId : string) : M unit :=
  do trainingStatus <- _trainingStatus fuel assistantId;
  match branch trainingStatus with
  | Done => event_clear "TrainingAssistantLock"
  | Wait => ret tt
  | TrainNLU => _trainAssistant fuel assistantId NLU
  | TrainASR => _trainAssistant fuel assistantId ASR
  | Inconsistent => raise something_went_wrong
  end.

(** [while trainingLock.isSet(): ...], for at most [ticks] tests of the
    loop condition. *)
Fixpoint poll (fuel ticks : nat) (assistantId : string) : M unit :=
  match ticks with
  | O => fun _ => Unfinished
  | S ticks' =>
      do go <- event_isSet "TrainingAssistantLock";
      if go then
        run tick fuel assistantId;
        poll fuel ticks' assistantId
      else ret tt
  end.

(** [_handleTraining(assistantId)]. *)
Definition _handleTraining (fuel ticks : nat) (assistantId : string) : M unit :=
  run newEvent "TrainingAssistantLock";
  run event_set "TrainingAssistantLock";
  poll fuel ticks assistantId.

(** [Path(tempfile.gettempdir(), 'assistant.zip').write_bytes(data)]:
    [open(mode='wb')], which truncates the file, then [write].  A failure
    of the open leaves the file as it was; a failure after it leaves the
    bytes written so far. *)
Definition write_bytes (data : string) : M unit :=
  match disk env data with
  | OpenFails => raise OSError
  | WriteFails n =>
      run modify (set_tmpfile (Some (substring 0 n data)));
      raise OSError
  | Written => modify (set_tmpfile (Some data))
  end.

(** [download(assistantId)]. *)
Definition download (fuel ticks : nat) (assistantId : string) : M bool :=
  try_except
    (run _handleTraining fuel ticks assistantId;
     do req <- _req fuel ("/v3/assistant/" +:+ assistantId +:+ "/download")
                 "get" None None;
     run write_bytes (content req);
     run event_clear "SnipsAssistantDownload";
     ret true)
    (fun _ =>
     run broadcast "onSnipsAssistantDownloadFailed";
     run event_clear "SnipsAssistantDownload";
     ret false).

(** [doDownload()]: raise the signal, then run [download] on the active
    project (the new thread is the only one that runs from here on). *)
Definition doDownload (fuel ticks : nat) : M bool :=
  run newEvent "SnipsAssistantDownload";
  run event_set "SnipsAssistantDownload";
  do projectId <- gets activeSnipsProjectId;
  download fuel ticks projectId.

End Console.

(** ** Reasoning about computations

    [wp m Q E u s]: running [m] from [s] ends in a value and a state that
    satisfy [Q], or in an exception and a state that satisfy [E]; [u] is
    what is claimed when the run is [Unfinished] ([True] for properties of
    the runs that end, [False] to state that the run does end). *)

Definition wp {A} (m : M A) (Q : A → State → Prop) (E : exn → State → Prop)
    (u : Prop) (s : State) : Prop :=
  match m s with
  | Returned a s' => Q a s'
  | Raised e s' => E e s'
  | Unfinished => u
  end.

(** ** Properties kept by every request and every login

    A property of the state is [stable] when none of the elementary
    updates performed by [_req] and [_login] breaks it: recording a
    request that carries no training command, touching headers, user,
    connection flag or the Snips configuration, and the two ways the
    counter of tries moves (one more try up to the third, back to zero). *)

(** The training command a request carries, if any. *)
Definition command_of (rq : Request) : option string :=
  rq_json rq ≫= (fun d => d !! "trainingType").

Record stable (I : State → Prop) : Prop := {
  st_send : ∀ s rq, command_of rq = None → I s → I (set_sent (sent s ++ [rq]) s);
  st_headers : ∀ s h, I s → I (set_headers h s);
  st_user : ∀ s x, I s → I (set_user x s);
  st_connected : ∀ s b, I s → I (set_connected b s);
  st_conf : ∀ s c, I s → I (set_snipsConf c s);
  st_retry : ∀ s, (_tries s + 1 ≤ 3)%Z → I s → I (set_tries (_tries s + 1) s);
  st_reset : ∀ s, I s → I (set_tries 0 s)
}.

(** What [_req] and [_login] let escape: a transport error, with the
    property kept. *)
Definition escapes (I : State → Prop) (e : exn) (s : State) : Prop :=
  I s ∧ e = RequestException.

(** *** What is observed of a state *)

(** The counter of tries stays between 0 and 3. *)
Definition tries_ok (s : State) : Prop := (0 ≤ _tries s ≤ 3)%Z.

(** The training commands sent so far, oldest first. *)
Definition commands (s : State) : list string := omap command_of (sent s).

(** How many times [clear()] was called on the event [name]. *)
Definition clears (name : string) (s : State) : nat :=
  length (filter (fun x => x = name) (cleared s)).

(** The postcondition that asks nothing. *)
Definition anything {A} : A → State → Prop := fun _ _ => True.

(** ** The poll loop *)

(** Properties that, on top of being stable, survive the recording of any
    request and the handling of the loop's own lock. *)
Record poll_stable (I : State → Prop) : Prop := {
  ps_stable :> stable I;
  ps_send : ∀ s rq, I s → I (set_sent (sent s ++ [rq]) s);
  ps_events : ∀ s e, I s → I (set_events e s);
  ps_lock : ∀ s, I s → I (set_cleared (cleared s ++ ["TrainingAssistantLock"]) s)
}.

(** The exceptions a tick of the loop can end in, given that its last
    branch is never taken: those of the transport and of the status
    fetch. *)
Definition fetch_exn (e : exn) : Prop :=
  e = RequestException ∨ e = JSONError ∨ ∃ c, e = ApiError c.

(** Everything about the signal of the download and about the broadcasts
    is out of reach of the poll loop. *)
Definition signal_frame (n : nat) (b : list string) (s : State) : Prop :=
  clears "SnipsAssistantDownload" s = n ∧ broadcasts s = b.

(** *** When the loop is out of ticks

    With fuel for four nested logins every tick ends, so a poll that is
    [Unfinished] after [ticks] tests is a loop that has gone through that
    many complete ticks and found its lock still set each time. *)

Fixpoint still_polling (env : World) (fuel ticks : nat) (assistantId : string)
    (s : State) : Prop :=
  match ticks with
  | O => True
  | S ticks' =>
      default false (events s !! "TrainingAssistantLock") = true ∧
      ∃ s', tick env fuel assistantId s = Returned tt s' ∧
            still_polling env fuel ticks' assistantId s'
  end.

(** ** The download task and its completion signal *)

(** What must hold when the task is over: it returned (no exception gets
    out), [clear()] was called exactly once more on the signal, the signal
    is down, and the failure broadcast went out exactly when the task
    returned [False]. *)
Definition cleared_once (s : State) (r : Result bool) : Prop :=
  match r with
  | Returned b s' =>
      clears "SnipsAssistantDownload" s' = S (clears "SnipsAssistantDownload" s) ∧
      default false (events s' !! "SnipsAssistantDownload") = false ∧
      broadcasts s' =
        broadcasts s ++ (if b then [] else ["onSnipsAssistantDownloadFailed"])
  | Raised _ _ => False
  | Unfinished => True
  end.

(** The state in which [_handleTraining] enters its loop. *)
Definition lock_set (s : State) : State :=
  set_events (<["TrainingAssistantLock" := true]>
                (<["TrainingAssistantLock" := false]> (events s))) s.

(** ** One tick of the poll loop, branch by branch *)

(** The training commands a branch sends. *)
Definition branch_commands (b : Branch) : list string :=
  match b with
  | TrainNLU => ["nlu"]
  | TrainASR => ["asr"]
  | _ => []
  end.

(** Neither sub-model needs training, neither is in progress. *)
Definition idle (t : TrainingStatusResponse) : Prop :=
  needTraining (nluStatus t) = false ∧ inProgress (nluStatus t) = false ∧
  needTraining (asrStatus t) = false ∧ inProgress (asrStatus t) = false.

(** Both sub-models need training, neither is in progress. *)
Definition both_need (t : TrainingStatusResponse) : Prop :=
  needTraining (nluStatus t) = true ∧ inProgress (nluStatus t) = false ∧
  needTraining (asrStatus t) = true ∧ inProgress (asrStatus t) = false.

(** The state a tick leaves when it takes the [Done] branch from [s]. *)
Definition lock_cleared (s : State) : State :=
  set_cleared (cleared s ++ ["TrainingAssistantLock"])
    (set_events (<["TrainingAssistantLock" := false]> (events s)) s).

(** ** Concrete services, for runs that are evaluated *)

(** A response with a status and nothing else. *)
Definition plain (code : Z) : Response :=
  {| status_code := code; headers := ∅; json_user := None; json_token := None;
     json_training := None; content := "" |}.

(** A 200 response whose body is a training status. *)
Definition status_reply (t : TrainingStatusResponse) : Response :=
  {| status_code := 200; headers := ∅; json_user := None; json_token := None;
     json_training := Some t; content := "" |}.

(** Status fetches and downloads are the GET requests. *)
Definition is_get (rq : Request) : bool := String.eqb (rq_method rq) "get".

(** A service that answers the k-th GET with the k-th status of [script]
    and everything else with an empty 200. *)
Definition status_server (script : list TrainingStatusResponse) : World :=
  {| http := fun history rq =>
       if is_get rq then
         match script !! length (filter (fun r => is_get r = true) history) with
         | Some t => Reply (status_reply t)
         | None => Reply (plain 200)
         end
       else Reply (plain 200);
     uuid4 := fun _ => "00000000-0000-0000-0000-000000000000";
     disk := fun _ => Written |}.

(** A status from its four flags. *)
Definition status (nluNeed nluBusy asrNeed asrBusy : bool) : TrainingStatusResponse :=
  {| nluStatus := {| needTraining := nluNeed; inProgress := nluBusy |};
     asrStatus := {| needTraining := asrNeed; inProgress := asrBusy |} |}.

(** The state a result carries, or [d]. *)
Definition state_of {A} (r : Result A) (d : State) : State :=
  match r with
  | Returned _ s => s
  | Raised _ s => s
  | Unfinished => d
  end.

(** Occurrences of [c] in [l]. *)
Definition count (c : string) (l : list string) : nat :=
  length (filter (fun x => x = c) l).

(** The sentence of the specification on whole runs: in any run of
    [_handleTraining] every 'train ASR' has a 'train NLU' before it. *)
Definition nlu_always_precedes_asr : Prop :=
  ∀ env fuel ticks assistantId s s',
    commands s = [] →
    final (_handleTraining env fuel ticks assistantId s) = Some s' →
    ∀ i, commands s' !! i = Some "asr" →
         ∃ j, (j < i)%nat ∧ commands s' !! j = Some "nlu".

(** First only ASR needs training; once it is trained both sub-models
    need training; then nothing does. *)
Definition asr_first_server : World :=
  status_server [status false false true false;
                 status true false true false;
                 status false false false false].

(** First both sub-models need training, then nothing does. *)
Definition both_need_server : World :=
  status_server [status true false true false; status false false false false].

(** A manager just created, inside the loop of [_handleTraining]. *)
Definition both_need_start : State := lock_set (init ∅ ∅ "a1").

(** The state once the first status of [both_need_server] is fetched. *)
Definition both_need_fetched : State :=
  state_of (_trainingStatus both_need_server 4 "a1" both_need_start) both_need_start.

(** The sentence of the specification: on a tick that follows a tick
    that was not Done (the loop is still running) and that fetches an
    idle status, the poller raises the fatal exception. *)
Definition inconsistency_is_reported : Prop :=
  ∀ env fuel assistantId s0 s t s1,
    tick env fuel assistantId s0 = Returned tt s →
    default false (events s !! "TrainingAssistantLock") = true →
    _trainingStatus env fuel assistantId s = Returned t s1 →
    idle t →
    ∃ s', tick env fuel assistantId s = Raised something_went_wrong s'.

(** The states after the first tick against [both_need_server] and after
    the status fetch of the second. *)
Definition after_first_tick : State :=
  state_of (tick both_need_server 4 "a1" both_need_start) both_need_start.

Definition idle_fetched : State :=
  state_of (_trainingStatus both_need_server 4 "a1" after_first_tick) both_need_start.

(** The four statuses of the scenario; the two flags the scenario leaves
    open are parameters. *)
Definition scenario (nluNeed2 asrNeed3 : bool) : list TrainingStatusResponse :=
  [ status true false true false;
    status nluNeed2 true true false;
    status false false asrNeed3 true;
    status false false false false ].

(** [_handleTraining] on a manager just created, against the scenario. *)
Definition scenario_run (nluNeed2 asrNeed3 : bool) (fuel ticks : nat) : Result unit :=
  _handleTraining (status_server (scenario nluNeed2 asrNeed3)) fuel ticks "a1"
    (init ∅ ∅ "a1").

(** The sentence of the specification: one 'train NLU', one 'train ASR',
    and the run ends Done. *)
Definition scenario_as_stated (nluNeed2 asrNeed3 : bool) : Prop :=
  ∃ s', scenario_run nluNeed2 asrNeed3 4 5 = Returned tt s' ∧
        count "nlu" (commands s') = 1%nat ∧ count "asr" (commands s') = 1%nat.

(** ** Requests and logins, path by path *)

(** The request [_req] builds in state [s]. *)
Definition request_of (s : State) (url method : string)
    (params data : option (gmap string string)) : Request :=
  {| rq_method := method;
     rq_url := "https://external-gateway.snips.ai" +:+ url;
     rq_params := params; rq_json := data;
     rq_headers := _headers s |}.

(** The state once [rq] is handed to the transport. *)
Definition recorded (rq : Request) (s : State) : State :=
  set_sent (sent s ++ [rq]) s.

(** The state in which the 401 handling of [_req] calls [_login]. *)
Definition unauthorized (s : State) : State :=
  set_snipsConf
    (<[("project-alice", "console_user_email") := ""]>
       (<[("project-alice", "console_user_id") := ""]>
          (<[("project-alice", "console_alias") := ""]>
             (<[("project-alice", "console_token") := ""]> (snipsConf s)))))
    (set_connected false
       (set_headers (delete "Authorization" (_headers s)) s)).

(** The authentication request of a login started in [s], and the state
    once it is recorded. *)
Definition auth_request (s : State) : Request :=
  request_of s "/v1/user/auth" "post" None
    (Some (<["password" := default "" (aliceConf s !! "snipsConsolePassword")]>
             (<["email" := default "" (aliceConf s !! "snipsConsoleLogin")]> ∅))).

Definition auth_sent (s : State) : State :=
  recorded (auth_request s) (set_tries (_tries s + 1) s).

(** The state in which the exchange request is built, the request, and
    the state once it is recorded. *)
Definition exchange_start (token : string) (user : SnipsConsoleUser) (s : State) : State :=
  set_headers (<["Authorization" := token]> (_headers s))
    (set_user (Some user) (auth_sent s)).

Definition exchange_request (env : World) (token : string) (user : SnipsConsoleUser)
    (s : State) : Request :=
  request_of (exchange_start token user s)
    ("/v1/user/" +:+ userId user +:+ "/accesstoken") "post" None
    (Some (<["alias" := substring 0 29
               (remove_dashes ("projectalice" +:+ uuid4 env (length (sent (auth_sent s)))))]> ∅)).

Definition exchange_sent (env : World) (token : string) (user : SnipsConsoleUser)
    (s : State) : State :=
  recorded (exchange_request env token user s) (exchange_start token user s).

(** The service accepts the credentials of a login started in [s]: 200,
    a bearer token in the headers, a user in the body. *)
Definition auth_accepted (env : World) (s : State) (token : string)
    (user : SnipsConsoleUser) : Prop :=
  ∃ req, http env (sent s) (auth_request s) = Reply req ∧
         status_code req = 200%Z ∧
         headers req !! "authorization" = Some token ∧
         json_user req = Some user.

(** The service grants the exchange: 201 and a token dict in the body. *)
Definition exchange_granted (env : World) (s : State) (token : string)
    (user : SnipsConsoleUser) (accessToken : gmap string string) : Prop :=
  ∃ req, http env (sent (auth_sent s)) (exchange_request env token user s) = Reply req ∧
         status_code req = 201%Z ∧
         json_token req = Some accessToken.

(** The state a fully successful login leaves. *)
Definition logged_in (env : World) (token : string) (user : SnipsConsoleUser)
    (tok alias : string) (s : State) : State :=
  let s' := exchange_sent env token user s in
  set_tries 0
    (set_connected true
       (set_headers (<["Authorization" := "JWT " +:+ tok]> (_headers s'))
          (set_snipsConf
             (<[("project-alice", "console_user_email") := userEmail user]>
                (<[("project-alice", "console_user_id") := userId user]>
                   (<[("project-alice", "console_alias") := alias]>
                      (<[("project-alice", "console_token") := tok]> (snipsConf s')))))
             s'))).

(** A response to the authentication request: 200, the bearer token in
    the headers, the user in the body. *)
Definition auth_reply (token : string) (user : SnipsConsoleUser) : Response :=
  {| status_code := 200; headers := <["authorization" := token]> ∅;
     json_user := Some user; json_token := None; json_training := None;
     content := "" |}.

(** A response to the exchange request, with its status and token dict. *)
Definition token_reply (code : Z) (accessToken : gmap string string) : Response :=
  {| status_code := code; headers := ∅; json_user := None;
     json_token := Some accessToken; json_training := None; content := "" |}.

(** A service that gives the k-th request the k-th answer of [answers],
    and an empty 200 once the list is used up. *)
Definition scripted (answers : list Answer) : World :=
  {| http := fun history _ => default (Reply (plain 200)) (answers !! length history);
     uuid4 := fun _ => "123e4567-e89b-12d3-a456-426614174000";
     disk := fun _ => Written |}.

(** A user, and a manager just created with her login configured. *)
Definition alice : SnipsConsoleUser :=
  {| userId := "u1"; userEmail := "alice@example.org" |}.

Definition fresh : State :=
  init ∅ (<["snipsConsolePassword" := "secret"]>
            (<["snipsConsoleLogin" := "alice@example.org"]> ∅)) "a1".

(** The credentials are accepted and the exchange is granted. *)
Definition granting_server : World :=
  scripted [Reply (auth_reply "RAW" alice);
            Reply (token_reply 201 (<["alias" := "A"]> (<["token" := "T"]> ∅)))].

(** The first request is answered 401; the login that follows succeeds. *)
Definition expiring_server : World :=
  scripted [Reply (plain 401);
            Reply (auth_reply "RAW" alice);
            Reply (token_reply 201 (<["alias" := "A"]> (<["token" := "T"]> ∅)))].

(** The exchange of a login started in [s] fails without a 401: the
    transport raises, or the status is neither 201 nor 401. *)
Definition exchange_refused (env : World) (s : State) (token : string)
    (user : SnipsConsoleUser) : Prop :=
  http env (sent (auth_sent s)) (exchange_request env token user s) = ConnectionError ∨
  ∃ req, http env (sent (auth_sent s)) (exchange_request env token user s) = Reply req ∧
         status_code req ≠ 201%Z ∧ status_code req ≠ 401%Z.

(** The sentence of the specification: any status other than 201 on the
    exchange leaves the session unauthenticated and the persisted
    configuration as it was. *)
Definition failed_exchange_is_atomic : Prop :=
  ∀ env fuel s token user req,
    (_tries s < 3)%Z →
    auth_accepted env s token user →
    http env (sent (auth_sent s)) (exchange_request env token user s) = Reply req →
    status_code req ≠ 201%Z →
    ∃ s', _login env (S fuel) s = Returned tt s' ∧
          _connected s' = false ∧ snipsConf s' = snipsConf s.

(** The exchange gets a 401; the login that the 401 handling starts
    succeeds and persists its credentials. *)
Definition relogin_server : World :=
  scripted [Reply (auth_reply "RAW" alice);
            Reply (plain 401);
            Reply (auth_reply "RAW2" alice);
            Reply (token_reply 201 (<["alias" := "A2"]> (<["token" := "T2"]> ∅)))].

(** The credentials are accepted, the exchange is answered 500. *)
Definition refusing_server : World :=
  scripted [Reply (auth_reply "RAW" alice); Reply (plain 500)].

(** All four credential keys hold the empty string. *)
Definition credentials_blank (s : State) : Prop :=
  ∀ key, key ∈ credential_keys → snipsConf s !! ("project-alice", key) = Some "".

(** The exchange is granted with a token dict that has a token and no
    alias. *)
Definition aliasless_server : World :=
  scripted [Reply (auth_reply "RAW" alice);
            Reply (token_reply 201 (<["token" := "T"]> ∅))].

(** The Authorization header of every request sent, oldest first. *)
Definition the_authorizations (s : State) : list (option string) :=
  map (fun rq => rq_headers rq !! "Authorization") (sent s).

(** The credentials are accepted, the exchange fails with a 500, and the
    service then answers a status fetch. *)
Definition stale_header_server : World :=
  scripted [Reply (auth_reply "RAW" alice);
            Reply (plain 500);
            Reply (status_reply (status false false false false))].

(** A service whose first answer is a 404: the status fetch raises. *)
Definition failing_server : World := scripted [Reply (plain 404)].

(** The requests of a login: the POSTs to the user endpoints, which are
    the authentication request and the access-token exchange. *)
Definition login_request (rq : Request) : Prop :=
  rq_method rq = "post" ∧
  String.prefix "https://external-gateway.snips.ai/v1/user/" (rq_url rq) = true.

(** Everything sent after the requests [base] is a request of a login. *)
Definition sent_since (base : list Request) (s : State) : Prop :=
  ∃ l, sent s = base ++ l ∧ Forall login_request l.

(** The first request is answered 401; the transport then fails on the
    authentication request of the login that the 401 handling starts. *)
Definition dropping_server : World :=
  scripted [Reply (plain 401); ConnectionError].

(** The sentence of the specification: a request answered 401 is handled
    and the response it got is returned to the caller, and that request is
    not sent again. *)
Definition unauthorized_response_is_returned : Prop :=
  ∀ env fuel url method params data s req,
    (4 ≤ fuel)%nat → (0 ≤ _tries s)%Z →
    http env (sent s) (request_of s url method params data) = Reply req →
    status_code req = 401%Z →
    ∃ s' l, _req env fuel url method params data s = Returned req s' ∧
            sent s' = sent s ++ request_of s url method params data :: l ∧
            request_of s url method params data ∉ l.

(** ** More of the manager *)

(** The alias [_getAccessToken] builds from a uuid:
    [f'projectalice{uuid}'.replace('-', '')[:29]]. *)
Definition make_alias (uuid : string) : string :=
  substring 0 29 (remove_dashes ("projectalice" +:+ uuid)).

(** [c] occurs in [s]. *)
Fixpoint occurs (c : ascii) (s : string) : bool :=
  match s with
  | EmptyString => false
  | String c' s' => Ascii.eqb c' c || occurs c s'
  end.

Section Assistants.

(** [req.json()['assistants']], [None] when the expression raises. *)
Variable Assistants : Type.
Variable json_assistants : Response → option Assistants.
Variable env : World.

(** [_listAssistants()]. *)
Definition _listAssistants (fuel : nat) : M Assistants :=
  do uid <- user_id;
  do req <- _req env fuel "/v3/assistant" "get" None (Some (<["userId" := uid]> ∅));
  orraise (json_assistants req) JSONError.

End Assistants.

(** The manager as [onStart] leaves it when a token is persisted. *)
Definition restored (s : State) : State :=
  let conf key := default "" (snipsConf s !! ("project-alice", key)) in
  set_connected true
    (set_user (Some {| userId := conf "console_user_id";
                       userEmail := conf "console_user_email" |})
       (set_headers (<["Authorization" := "JWT " +:+ conf "console_token"]> (_headers s)) s)).

(** A session marked as connected sends the persisted token: its
    Authorization header is [JWT <console_token>]. *)
Definition authorized (s : State) : Prop :=
  _connected s = true →
  _headers s !! "Authorization" =
    Some ("JWT " +:+ default "" (snipsConf s !! ("project-alice", "console_token"))).

(** The request by which [_logout] revokes the access token, in [s]. *)
Definition revoke_request (s : State) (user : SnipsConsoleUser) : Request :=
  request_of s
    ("/v1/user/" +:+ userId user +:+ "/accesstoken/" +:+
     default "" (snipsConf s !! ("project-alice", "console_alias")))
    "get" None None.

(** The state a logout leaves when its request is answered without a 401. *)
Definition logged_out (s : State) (user : SnipsConsoleUser) : State :=
  unauthorized (recorded (revoke_request s user) s).

(** The request of a status fetch and of a training command, in [s]. *)
Definition status_request (s : State) (assistantId : string) : Request :=
  request_of s ("/v2/training/assistant/" +:+ assistantId) "get" None None.

Definition train_request (s : State) (assistantId : string)
    (trainingType : SnipsTrainingType) : Request :=
  request_of s ("/v2/training/assistant/" +:+ assistantId) "post" None
    (Some (<["trainingType" := SnipsTrainingType_value trainingType]> ∅)).

(** The request of the bundle download, in [s]. *)
Definition download_request (s : State) (assistantId : string) : Request :=
  request_of s ("/v3/assistant/" +:+ assistantId +:+ "/download") "get" None None.

(** The lock of the poll loop is set, and was cleared [n] times. *)
Definition lock_held (n : nat) (s : State) : Prop :=
  events s !! "TrainingAssistantLock" = Some true ∧
  clears "TrainingAssistantLock" s = n.

(** The service answers every request with a status that is neither 200
    nor 401. *)
Definition always_refuses (env : World) : Prop :=
  ∀ history rq, ∃ req, http env history rq = Reply req ∧
                       status_code req ≠ 200%Z ∧ status_code req ≠ 401%Z.

(** The service answers every request with a 401. *)
Definition always_unauthorized (env : World) : Prop :=
  ∀ history rq, ∃ req, http env history rq = Reply req ∧ status_code req = 401%Z.

(** A session with nothing left of a login: not connected, no
    Authorization header, the four credential keys blank. *)
Definition closed (s : State) : Prop :=
  _connected s = false ∧ _headers s !! "Authorization" = None ∧ credentials_blank s.

(** A service that answers every request with a 403, and one that
    answers every request with a 401. *)
Definition forbidding_server : World :=
  {| http := fun _ _ => Reply (plain 403); uuid4 := fun _ => "";
     disk := fun _ => Written |}.

Definition rejecting_server : World :=
  {| http := fun _ _ => Reply (plain 401); uuid4 := fun _ => "";
     disk := fun _ => Written |}.

(** A 404 with a body; and a service that reports the training done and
    answers the download with it, on a disk that does [d] with every
    write. *)
Definition not_found : Response :=
  {| status_code := 404; headers := ∅; json_user := None; json_token := None;
     json_training := None; content := "Not Found" |}.

Definition bundle_server (d : WriteOutcome) : World :=
  {| http := fun history _ =>
       default (Reply (plain 200))
         ([Reply (status_reply (status false false false false));
           Reply not_found] !! length history);
     uuid4 := fun _ => "";
     disk := fun _ => d |}.

(** ** PocketSphinxASR

    [core/asr/model/PocketSphinxASR.py], method [decodeStream].  The
    pocketsphinx decoder is an outside library: it is modelled by its
    calls and by what it answers to the two queries the method makes,
    each answer a function of the calls made so far.  The timeout event
    is set by another thread: its flag is read as a function of the
    number of chunks already handled.  The base class's calls
    ([super().decodeStream], [self.end]) and the stopwatch, whose reading
    [processingTime] is a clock time, do not touch the decoder and are
    left out; [str.strip] is a parameter. *)

(** The calls that change the decoder. *)
Inductive DecoderCall :=
| StartUtt
| ProcessRaw (chunk : string)
| EndUtt.

(** A pocketsphinx hypothesis: the fields the method reads. *)
Record DecoderHypothesis := {
  hypstr : string;
  prob   : Z
}.

(** The decoder's answers: [get_in_speech()] and [hyp()] after the calls
    made so far, oldest first. *)
Record Decoder := {
  get_in_speech : list DecoderCall → bool;
  hyp           : list DecoderCall → option DecoderHypothesis
}.

(** The recorder: the chunks its generator yields, and its session. *)
Record Recorder := {
  generator : list string;
  session   : string
}.

(** An [ASRResult], without its processing time. *)
Record ASRResult := {
  text : string;
  result_session : string;
  likelihood : Z
}.

(** What [decodeStream] ends in: its return value, or the
    [AttributeError] of [self._decoder.hyp().prob] on [None]. *)
Inductive Decoded :=
| Decodes (r : option ASRResult)
| NoHypothesis.

Section PocketSphinx.

Variable decoder : Decoder.
Variable timeout : nat → bool.
Variable strip : string → string.

(** The [for] loop over the chunks: [k] chunks were handled before,
    [calls] were made, and the loop ends with the calls made and with
    [result]. *)
Fixpoint decode_chunks (k : nat) (chunks : list string) (inSpeech : bool)
    (calls : list DecoderCall) : list DecoderCall * option DecoderHypothesis :=
  match chunks with
  | [] => (calls, None)
  | chunk :: chunks' =>
      if timeout k || String.eqb chunk "" then (calls, None)
      else
        let calls := calls ++ [ProcessRaw chunk] in
        if negb (Bool.eqb (get_in_speech decoder calls) inSpeech) then
          let inSpeech := get_in_speech decoder calls in
          if negb inSpeech then
            let calls := calls ++ [EndUtt] in
            (calls, hyp decoder calls)
          else decode_chunks (S k) chunks' inSpeech calls
        else decode_chunks (S k) chunks' inSpeech calls
  end.

(** [decodeStream(recorder)], from a decoder on which [calls] were made:
    the calls made in the end, and the outcome. *)
Definition decodeStream (recorder : Recorder) (calls : list DecoderCall)
    : list DecoderCall * Decoded :=
  let calls := calls ++ [StartUtt] in
  let '(calls, result) := decode_chunks 0 (generator recorder) false calls in
  (calls,
   match result with
   | Some result =>
       match hyp decoder calls with
       | Some h =>
           Decodes (Some {| text := strip (hypstr result);
                           result_session := session recorder;
                           likelihood := prob h |})
       | None => NoHypothesis
       end
   | None => Decodes None
   end).

End PocketSphinx.

(** How a run of [decodeStream] over [processed] chunks ended: in the
    silence that follows speech, with the utterance ended, or without
    ending the utterance. *)
Definition utterance_ended (decoder : Decoder) (calls : list DecoderCall)
    (processed : list string) (calls' : list DecoderCall) : Prop :=
  ∃ before chunk,
    processed = before ++ [chunk] ∧ before ≠ [] ∧
    get_in_speech decoder (calls ++ StartUtt :: map ProcessRaw before) = true ∧
    get_in_speech decoder (calls ++ StartUtt :: map ProcessRaw processed) = false ∧
    calls' = calls ++ StartUtt :: map ProcessRaw processed ++ [EndUtt].

(** The [ASRResult] made from a hypothesis. *)
Definition result_of (strip : string → string) (recorder : Recorder)
    (h : DecoderHypothesis) : ASRResult :=
  {| text := strip (hypstr h); result_session := session recorder;
     likelihood := prob h |}.

(** A decoder that hears speech after its second call (the first chunk
    of an utterance it was started for) and silence otherwise, and whose
    hypothesis is " hello ". *)
Definition two_chunk_decoder : Decoder :=
  {| get_in_speech := fun calls => Nat.eqb (length calls) 2;
     hyp := fun _ => Some {| hypstr := " hello "; prob := (-3) |} |}.

(** A decoder that never hears speech. *)
Definition deaf_decoder : Decoder :=
  {| get_in_speech := fun _ => false;
     hyp := fun _ => Some {| hypstr := "never"; prob := 0 |} |}.

Definition three_chunks : Recorder :=
  {| generator := ["a"; "b"; "c"]; session := "session1" |}.

(** * Verified properties *)

(** ** Rules for [wp] *)

Lemma wp_ret {A} (a : A) Q E u s : Q a s → wp (ret a) Q E u s.
Proof. exact id. Qed.

Lemma wp_raise {A} e (Q : A → State → Prop) E u s : E e s → wp (raise e) Q E u s.
Proof. exact id. Qed.

Lemma wp_modify f Q E u s : Q tt (f s) → wp (modify f) Q E u s.
Proof. exact id. Qed.

Lemma wp_gets {A} (f : State → A) Q E u s : Q (f s) s → wp (gets f) Q E u s.
Proof. exact id. Qed.

Lemma wp_bind {A B} (m : M A) (f : A → M B) Q E u s :
  wp m (fun a s' => wp (f a) Q E u s') E u s → wp (bind m f) Q E u s.
Proof. unfold wp, bind. destruct (m s); auto. Qed.

Lemma wp_try {A} (m : M A) h Q E u s :
  wp m Q (fun e s' => wp (h e) Q E u s') u s → wp (try_except m h) Q E u s.
Proof. unfold wp, try_except. destruct (m s); auto. Qed.

Lemma wp_mono {A} (m : M A) (Q Q' : A → State → Prop) (E E' : exn → State → Prop)
    (u u' : Prop) s :
  wp m Q E u s →
  (∀ a s', Q a s' → Q' a s') → (∀ e s', E e s' → E' e s') → (u → u') →
  wp m Q' E' u' s.
Proof. unfold wp. destruct (m s); auto. Qed.

Lemma wp_getitem d key Q E u s :
  (∀ v, d !! key = Some v → Q v s) → (d !! key = None → E (KeyError key) s) →
  wp (getitem d key) Q E u s.
Proof. unfold getitem. destruct (d !! key); intros H1 H2; [apply H1 | apply H2]; done. Qed.

Lemma wp_orraise {A} (o : option A) e Q E u s :
  (∀ v, o = Some v → Q v s) → (o = None → E e s) →
  wp (orraise o e) Q E u s.
Proof. unfold orraise. destruct o; intros H1 H2; [apply H1 | apply H2]; done. Qed.

(** One step of symbolic execution of a [wp] goal. *)
Ltac wp_step :=
  lazymatch goal with
  | |- wp (bind _ _) _ _ _ _ => apply wp_bind
  | |- wp (ret _) _ _ _ _ => apply wp_ret
  | |- wp (raise _) _ _ _ _ => apply wp_raise
  | |- wp (modify _) _ _ _ _ => apply wp_modify
  | |- wp (gets _) _ _ _ _ => apply wp_gets
  | |- wp (try_except _ _) _ _ _ _ => apply wp_try
  | |- wp (getitem _ _) _ _ _ _ => apply wp_getitem; intros
  | |- wp (orraise _ _) _ _ _ _ => apply wp_orraise; intros
  | |- wp (updateSnipsConfiguration _ _ _) _ _ _ _ => apply wp_modify
  | |- wp (getSnipsConfiguration _ _) _ _ _ _ => apply wp_gets
  | |- wp (getAliceConfigByName _) _ _ _ _ => apply wp_gets
  | |- wp (newEvent _) _ _ _ _ => apply wp_modify
  | |- wp (event_set _) _ _ _ _ => apply wp_modify
  | |- wp (event_clear _) _ _ _ _ => apply wp_modify
  | |- wp (event_isSet _) _ _ _ _ => apply wp_gets
  | |- wp (broadcast _) _ _ _ _ => apply wp_modify
  | |- wp (if ?b then _ else _) _ _ _ _ => destruct b eqn:?
  | |- wp (match ?o with _ => _ end) _ _ _ _ => destruct o eqn:?
  end.

(** ** Requests and logins keep stable properties *)

Section Stable.

Variable env : World.
Variable I : State → Prop.
Hypothesis HI : stable I.
Variable u : Prop.
Variable login : M unit.
Hypothesis login_keeps : ∀ s, I s → wp login (fun _ => I) (escapes I) u s.

Lemma on_unauthorized_keeps s :
  I s → wp on_unauthorized (fun _ => I) (escapes I) u s.
Proof using HI.
  intros H. unfold on_unauthorized. repeat wp_step.
  repeat first [apply (st_conf _ HI) | apply (st_connected _ HI) | apply (st_headers _ HI)].
  exact H.
Qed.

(** [_req] keeps the property as soon as it holds once the request is
    recorded. *)
Lemma req_body_keeps url method params data s :
  I (set_sent (sent s ++ [{| rq_method := method;
                            rq_url := "https://external-gateway.snips.ai" +:+ url;
                            rq_params := params; rq_json := data;
                            rq_headers := _headers s |}]) s) →
  wp (_req_body env login url method params data) (fun _ => I) (escapes I) u s.
Proof using HI login_keeps.
  intros H. unfold wp at 1, _req_body.
  destruct (http env _ _) as [|req]; [by split|].
  destruct (status_code req =? 401)%Z; [|exact H].
  change (wp (run on_unauthorized; run login; ret req) (fun _ => I) (escapes I) u
            (set_sent (sent s ++ [{| rq_method := method;
                            rq_url := "https://external-gateway.snips.ai" +:+ url;
                            rq_params := params; rq_json := data;
                            rq_headers := _headers s |}]) s)).
  wp_step. eapply wp_mono; [apply on_unauthorized_keeps, H| |auto..].
  intros ? s' H'. wp_step.
  eapply wp_mono; [apply login_keeps, H'| |auto..].
  intros ? s'' H''. by wp_step.
Qed.

Lemma user_id_keeps (Q : string → State → Prop) E s :
  (∀ v, Q v s) → (∀ e, E e s) → wp user_id Q E u s.
Proof.
  intros HQ HE. unfold user_id. wp_step. wp_step.
  destruct (_user s); wp_step; auto.
Qed.

Lemma getAccessToken_body_keeps token s :
  I s → wp (_getAccessToken_body env login token) (fun _ => I) (fun _ => I) u s.
Proof using HI login_keeps.
  intros H. unfold _getAccessToken_body. repeat wp_step.
  apply user_id_keeps; [|intros; by apply (st_headers _ HI)].
  intros uid. wp_step.
  eapply wp_mono; [apply req_body_keeps| |by intros ?? []|auto].
  - apply (st_send _ HI); [done|]. by apply (st_headers _ HI).
  - intros req s' H'. repeat wp_step; done.
Qed.

Lemma login_try_keeps req s :
  I s → wp (_login_try env login req) (fun _ => I) (fun _ => I) u s.
Proof using HI login_keeps.
  intros H. unfold _login_try. repeat wp_step; try done.
  eapply wp_mono; [apply getAccessToken_body_keeps; by apply (st_user _ HI)| |auto..].
  intros tok s' H'. repeat wp_step; try done; [|by apply (st_conf _ HI)].
  apply user_id_keeps; [|intros; by apply (st_conf _ HI), (st_conf _ HI)].
  intros uid. repeat wp_step; try by repeat apply (st_conf _ HI).
  apply (st_reset _ HI), (st_connected _ HI), (st_headers _ HI).
  by repeat apply (st_conf _ HI).
Qed.

Lemma login_body_keeps s :
  I s → wp (_login_body env login) (fun _ => I) (escapes I) u s.
Proof using HI login_keeps.
  intros H. unfold _login_body. repeat wp_step.
  - by apply (st_reset _ HI) in H.
  - assert (I (set_tries (_tries s + 1) s)) as H1.
    { apply (st_retry _ HI); [|done].
      match goal with Hlt : (3 <? _)%Z = false |- _ => apply Z.ltb_ge in Hlt; exact Hlt end. }
    eapply wp_mono; [apply req_body_keeps| |auto..].
    + by apply (st_send _ HI).
    + intros req s' H'. repeat wp_step.
      * eapply wp_mono; [apply login_try_keeps, H'|auto| |auto].
        intros e s'' H''. wp_step. by apply (st_connected _ HI).
      * by apply (st_connected _ HI).
Qed.

End Stable.

(** With the knot tied: [_login] and [_req] keep every stable property,
    whatever the fuel, and only a transport error escapes them. *)
Lemma login_keeps env I (HI : stable I) fuel s :
  I s → wp (_login env fuel) (fun _ => I) (escapes I) True s.
Proof.
  revert s. induction fuel as [|fuel IH]; intros s H; [exact Logic.I|].
  by apply login_body_keeps.
Qed.

Lemma req_keeps env I (HI : stable I) fuel url method params data s :
  I (set_sent (sent s ++ [{| rq_method := method;
                            rq_url := "https://external-gateway.snips.ai" +:+ url;
                            rq_params := params; rq_json := data;
                            rq_headers := _headers s |}]) s) →
  wp (_req env fuel url method params data) (fun _ => I) (escapes I) True s.
Proof.
  intros H. apply req_body_keeps; [done| |done].
  intros. by apply login_keeps.
Qed.

Lemma tries_ok_stable : stable tries_ok.
Proof. split; unfold tries_ok; simpl; intros; lia. Qed.

Lemma trivially_stable : stable (fun _ => True).
Proof. by split. Qed.

Lemma commands_send s rq :
  commands (set_sent (sent s ++ [rq]) s) =
  commands s ++ match command_of rq with Some c => [c] | None => [] end.
Proof. unfold commands. simpl. rewrite omap_app. simpl. by destruct (command_of rq). Qed.

Lemma commands_stable c : stable (fun s => commands s = c).
Proof.
  split; try (simpl; intros; done).
  intros s rq Hrq H. rewrite commands_send, Hrq, H. apply app_nil_r.
Qed.

(** ** Enough fuel: logins nest at most four deep

    Every nested [_login] starts one try higher than the login around it,
    and a login that starts above three tries gives up at once. *)

(** The give-up branch: no request, no exception, counter back to 0. *)
Lemma login_body_gives_up env login s :
  (3 ≤ _tries s)%Z →
  _login_body env login s = Returned tt (set_tries 0 s).
Proof.
  intros H. unfold _login_body, bind, modify, gets. simpl.
  destruct (Z.ltb_spec 3 (_tries s + 1)); [done | lia].
Qed.

Section Finishes.

Variable env : World.
Variable login : M unit.
Variable t : Z.
Hypothesis login_finishes_at :
  ∀ s, _tries s = t → wp login anything anything False s.

Lemma on_unauthorized_tries s :
  wp on_unauthorized (fun _ s' => _tries s' = _tries s) anything False s.
Proof. unfold on_unauthorized. by repeat wp_step. Qed.

Lemma req_body_finishes url method params data s :
  _tries s = t →
  wp (_req_body env login url method params data)
     (fun req s' => status_code req ≠ 401%Z → _tries s' = t) anything False s.
Proof using login_finishes_at.
  intros H. unfold wp at 1, _req_body.
  destruct (http env _ _) as [|req]; [done|].
  destruct (Z.eqb_spec (status_code req) 401) as [E|E]; [|done].
  match goal with |- match ?m ?x with _ => _ end =>
    change (wp m (fun req s' => status_code req ≠ 401%Z → _tries s' = t) anything False x)
  end.
  wp_step. eapply wp_mono; [apply on_unauthorized_tries| |auto..].
  intros ? s' H'. wp_step.
  eapply wp_mono; [apply login_finishes_at; by rewrite H'| |auto..].
  intros ? s'' _. wp_step. by rewrite E.
Qed.

Lemma getAccessToken_body_finishes token s :
  _tries s = t →
  wp (_getAccessToken_body env login token) anything anything False s.
Proof using login_finishes_at.
  intros H. unfold _getAccessToken_body. repeat wp_step.
  unfold user_id. repeat wp_step; [|done].
  eapply wp_mono; [by apply req_body_finishes| |auto..].
  intros req s' _. by repeat wp_step.
Qed.

Lemma login_try_finishes req s :
  _tries s = t →
  wp (_login_try env login req) anything anything False s.
Proof using login_finishes_at.
  intros H. unfold _login_try. repeat wp_step; try done.
  eapply wp_mono; [by apply getAccessToken_body_finishes| |auto..].
  intros tok s' _. unfold user_id. by repeat wp_step.
Qed.

Lemma login_body_finishes s :
  (_tries s + 1)%Z = t →
  wp (_login_body env login) anything anything False s.
Proof using login_finishes_at.
  intros H. unfold _login_body. repeat wp_step; [done|].
  eapply wp_mono; [by apply req_body_finishes| |auto..].
  intros req s' H'. repeat wp_step; try done.
  destruct (Z.eqb_spec (status_code req) 200) as [E|]; [|done].
  eapply wp_mono; [apply login_try_finishes, H'; lia|done| |done].
  intros e s'' _. by wp_step.
Qed.

End Finishes.

Lemma login_finishes env fuel s :
  (0 < fuel)%nat → (4 - _tries s ≤ Z.of_nat fuel)%Z →
  wp (_login env fuel) anything anything False s.
Proof.
  revert s. induction fuel as [|fuel IH]; intros s Hpos Hfuel; [lia|].
  simpl. destruct (Z.le_gt_cases 3 (_tries s)) as [Hge|Hlt].
  - unfold wp. by rewrite login_body_gives_up.
  - apply (login_body_finishes env _ (_tries s + 1)); [|done].
    intros s' Hs'. apply IH; lia.
Qed.

Lemma req_finishes env fuel url method params data s :
  (4 ≤ fuel)%nat → (0 ≤ _tries s)%Z →
  wp (_req env fuel url method params data) anything anything False s.
Proof.
  intros Hfuel Htries.
  eapply wp_mono; [apply (req_body_finishes env _ (_tries s))| |auto..]; try done.
  intros s' Hs'. apply login_finishes; lia.
Qed.

(** ** The poll loop keeps what it cannot reach *)

Lemma wp_conj {A} (m : M A) Q1 Q2 E1 E2 (u1 u2 : Prop) s :
  wp m Q1 E1 u1 s → wp m Q2 E2 u2 s →
  wp m (fun a s' => Q1 a s' ∧ Q2 a s') (fun e s' => E1 e s' ∧ E2 e s') (u1 ∧ u2) s.
Proof. unfold wp. destruct (m s); auto. Qed.

(** The chain of conditions leaves nothing for its final [else]. *)
Lemma branch_never_inconsistent t : branch t ≠ Inconsistent.
Proof. by destruct t as [[[] []] [[] []]]. Qed.

Section Poll.

Variable env : World.
Variable I : State → Prop.
Variable fuel : nat.
Variable assistantId : string.

Lemma trainingStatus_keeps s :
  stable I → I s →
  wp (_trainingStatus env fuel assistantId) (fun _ => I)
     (fun e s' => I s' ∧ fetch_exn e) True s.
Proof.
  intros HI H. unfold _trainingStatus. wp_step.
  eapply wp_mono; [apply (req_keeps env I HI)| | |auto].
  - by apply (st_send _ HI).
  - intros req s' H'. repeat wp_step; try done; split; try done.
    + right; right; eauto.
    + right; by left.
  - intros e s' [H' ->]. split; [done | by left].
Qed.

Lemma trainAssistant_keeps trainingType s :
  poll_stable I → I s →
  wp (_trainAssistant env fuel assistantId trainingType) (fun _ => I)
     (fun e s' => I s' ∧ fetch_exn e) True s.
Proof.
  intros HI H. unfold _trainAssistant. wp_step.
  eapply wp_mono; [apply (req_keeps env I HI)| | |auto].
  - by apply (ps_send _ HI).
  - intros req s' H'. by wp_step.
  - intros e s' [H' ->]. split; [done | by left].
Qed.

Lemma tick_keeps s :
  poll_stable I → I s →
  wp (tick env fuel assistantId) (fun _ => I)
     (fun e s' => I s' ∧ fetch_exn e) True s.
Proof.
  intros HI H. unfold tick. wp_step.
  eapply wp_mono; [by apply trainingStatus_keeps; [apply HI|]| |auto..].
  intros t s' H'. destruct (branch t) eqn:Hb.
  - wp_step. apply (ps_lock _ HI (set_events _ s')). by apply (ps_events _ HI).
  - by wp_step.
  - by apply trainAssistant_keeps.
  - by apply trainAssistant_keeps.
  - by destruct (branch_never_inconsistent t).
Qed.

Lemma poll_keeps ticks s :
  poll_stable I → I s →
  wp (poll env fuel ticks assistantId) (fun _ => I)
     (fun e s' => I s' ∧ fetch_exn e) True s.
Proof.
  intros HI. revert s. induction ticks as [|ticks IH]; intros s H; [exact Logic.I|].
  simpl. repeat wp_step; [|done].
  eapply wp_mono; [by apply tick_keeps| |auto..].
  intros ? s' H'. by apply IH.
Qed.

Lemma handleTraining_keeps ticks s :
  poll_stable I → I s →
  wp (_handleTraining env fuel ticks assistantId) (fun _ => I)
     (fun e s' => I s' ∧ fetch_exn e) True s.
Proof.
  intros HI H. unfold _handleTraining. repeat wp_step.
  by apply poll_keeps, (ps_events _ HI), (ps_events _ HI).
Qed.

End Poll.

Lemma tries_nonneg_poll_stable : poll_stable (fun s => (0 ≤ _tries s)%Z).
Proof. split; [split|..]; simpl; intros; lia. Qed.

Lemma signal_frame_poll_stable n b : poll_stable (signal_frame n b).
Proof.
  split; [split|..]; unfold signal_frame, clears; simpl; intros; try done.
  by rewrite filter_app, filter_cons_False, filter_nil, app_nil_r.
Qed.

(** Training commands are only ever added at the end. *)
Lemma commands_prefix_poll_stable c :
  poll_stable (fun s => c `prefix_of` commands s).
Proof.
  split; [split|..]; try (simpl; intros; done).
  - intros s rq _ H. rewrite commands_send. by apply prefix_app_r.
  - intros s rq H. rewrite commands_send. by apply prefix_app_r.
Qed.

Lemma trainingStatus_finishes env fuel assistantId s :
  (4 ≤ fuel)%nat → (0 ≤ _tries s)%Z →
  wp (_trainingStatus env fuel assistantId) anything anything False s.
Proof.
  intros Hf Ht. unfold _trainingStatus. wp_step.
  eapply wp_mono; [by apply req_finishes| |auto..].
  intros req s' _. by repeat wp_step.
Qed.

Lemma trainAssistant_finishes env fuel assistantId trainingType s :
  (4 ≤ fuel)%nat → (0 ≤ _tries s)%Z →
  wp (_trainAssistant env fuel assistantId trainingType) anything anything False s.
Proof.
  intros Hf Ht. unfold _trainAssistant. wp_step.
  eapply wp_mono; [by apply req_finishes| |auto..].
  intros req s' _. by wp_step.
Qed.

Lemma tick_finishes env fuel assistantId s :
  (4 ≤ fuel)%nat → (0 ≤ _tries s)%Z →
  wp (tick env fuel assistantId) anything anything False s.
Proof.
  intros Hf Ht. unfold tick. wp_step.
  eapply wp_mono;
    [apply wp_conj;
       [by apply trainingStatus_finishes
       |by apply (trainingStatus_keeps env (fun s => (0 ≤ _tries s)%Z)),
                 Ht; apply tries_nonneg_poll_stable]
    | |done|tauto].
  intros t s' [_ Ht']. simpl in Ht'.
  destruct (branch t); try (by wp_step); by apply trainAssistant_finishes.
Qed.

Lemma poll_unfinished env fuel ticks assistantId s :
  (4 ≤ fuel)%nat → (0 ≤ _tries s)%Z →
  poll env fuel ticks assistantId s = Unfinished ↔
  still_polling env fuel ticks assistantId s.
Proof.
  intros Hf. revert s. induction ticks as [|ticks IH]; intros s Ht; [done|].
  simpl. unfold bind at 1, event_isSet, gets.
  destruct (default false (events s !! "TrainingAssistantLock")); [|split; [done|by intros []]].
  pose proof (tick_finishes env fuel assistantId s Hf Ht) as Hfin.
  pose proof (tick_keeps env _ fuel assistantId s tries_nonneg_poll_stable Ht) as Hkeep.
  unfold wp in Hfin, Hkeep. unfold bind.
  destruct (tick env fuel assistantId s) as [[] s'|e s'|]; [|split; [done|]|done].
  - rewrite IH by done. split; [intros H; split; eauto|].
    by intros [_ (s'' & [= <-] & H)].
  - by intros [_ (s'' & [=] & _)].
Qed.

(** ** The download task and its completion signal *)

Lemma clear_signal_frame n b s :
  signal_frame n b s →
  signal_frame (S n) b
    (set_cleared (cleared s ++ ["SnipsAssistantDownload"])
       (set_events (<["SnipsAssistantDownload" := false]> (events s)) s)).
Proof.
  intros [<- <-]. split; [|done]. unfold clears. simpl.
  rewrite filter_app, filter_cons_True, filter_nil, length_app by done.
  simpl. lia.
Qed.

Lemma download_cleared_once env fuel ticks assistantId s :
  cleared_once s (download env fuel ticks assistantId s).
Proof.
  set (n := clears "SnipsAssistantDownload" s). set (b := broadcasts s).
  assert (signal_frame n b s) as H by done.
  cut (wp (download env fuel ticks assistantId)
          (fun r s' => signal_frame (S n) (b ++ if r then [] else ["onSnipsAssistantDownloadFailed"]) s' ∧
                       default false (events s' !! "SnipsAssistantDownload") = false)
          (fun _ _ => False) True s).
  { unfold wp, cleared_once. destruct (download env fuel ticks assistantId s); [|done..].
    by intros [[-> ->] ->]. }
  assert (∀ s', signal_frame n b s' →
            wp (run broadcast "onSnipsAssistantDownloadFailed";
                run event_clear "SnipsAssistantDownload"; ret false)
               (fun r s' => signal_frame (S n) (b ++ if r then [] else ["onSnipsAssistantDownloadFailed"]) s' ∧
                       default false (events s' !! "SnipsAssistantDownload") = false)
               (fun (_ : exn) _ => False) True s') as Hfail.
  { intros s' [H1 H2]. repeat wp_step. simpl. split.
    - apply (clear_signal_frame n (b ++ ["onSnipsAssistantDownloadFailed"])
               (set_broadcasts (broadcasts s' ++ ["onSnipsAssistantDownloadFailed"]) s')).
      split; [done|]. simpl. by rewrite H2.
    - by rewrite lookup_insert_eq. }
  unfold download. wp_step. wp_step.
  eapply wp_mono;
    [apply (handleTraining_keeps env (signal_frame n b)), H; apply signal_frame_poll_stable| | |done].
  2: { intros e s' [H' _]. by apply Hfail. }
  intros ? s' H'. wp_step.
  eapply wp_mono;
    [apply (req_keeps env (signal_frame n b)); [apply signal_frame_poll_stable|]| | |done].
  - by apply (ps_send _ (signal_frame_poll_stable n b)).
  - intros req s'' H''. unfold write_bytes. repeat wp_step.
    + by apply Hfail.
    + by apply Hfail.
    + simpl. split; [rewrite app_nil_r|by rewrite lookup_insert_eq].
      by apply (clear_signal_frame n b (set_tmpfile _ s'')).
  - intros e s'' [H'' _]. by apply Hfail.
Qed.

Lemma download_unfinished env fuel ticks assistantId s :
  (4 ≤ fuel)%nat → (0 ≤ _tries s)%Z →
  download env fuel ticks assistantId s = Unfinished →
  still_polling env fuel ticks assistantId (lock_set s).
Proof.
  intros Hf Ht. unfold download, try_except, bind at 1.
  destruct (_handleTraining env fuel ticks assistantId s) as [[] s'|e s'|] eqn:Hh.
  - pose proof (handleTraining_keeps env _ fuel assistantId ticks s
                  tries_nonneg_poll_stable Ht) as Hk.
    unfold wp in Hk. rewrite Hh in Hk.
    pose proof (req_finishes env fuel ("/v3/assistant/" +:+ assistantId +:+ "/download")
                  "get" None None s' Hf Hk) as Hr.
    unfold wp in Hr. unfold bind at 1.
    destruct (_req env fuel _ _ _ _ s') as [req s''|e s''|]; [|done..].
    unfold bind, write_bytes. by destruct (disk env (content req)).
  - done.
  - intros _. by apply (poll_unfinished env fuel ticks assistantId (lock_set s) Hf Ht).
Qed.

(** C1.  Every run of [download] that ends, ends by returning (no
    exception escapes it) after exactly one more [clear()] of the
    'SnipsAssistantDownload' event, which is then down: this holds when
    the run succeeds and returns [True] and when anything raised inside
    it (a failed request, a failed write, the fatal training exception)
    makes it broadcast the failure and return [False]; the same holds for
    [doDownload], which raises the signal first.  A run that has not
    ended after [ticks] passes of the poll loop is a loop that is still
    going: each of these passes completed and found the lock set. *)
Theorem download_clears_signal_exactly_once env fuel ticks assistantId s :
  (4 ≤ fuel)%nat → (0 ≤ _tries s)%Z →
  cleared_once s (download env fuel ticks assistantId s) ∧
  cleared_once s (doDownload env fuel ticks s) ∧
  (download env fuel ticks assistantId s = Unfinished →
   still_polling env fuel ticks assistantId (lock_set s)).
Proof.
  intros Hf Ht. split; [apply download_cleared_once|split].
  - unfold doDownload, bind, newEvent, event_set, modify, gets.
    match goal with |- cleared_once _ (download _ _ _ ?i ?x) =>
      pose proof (download_cleared_once env fuel ticks i x) as H;
      destruct (download env fuel ticks i x)
    end; done.
  - by apply download_unfinished.
Qed.

(** C1 on two runs: the scenario of four statuses, which succeeds, and a
    service that answers the first status fetch with a 404, which makes
    the task fail. *)
Lemma download_clears_signal_exactly_once_witness :
  (∃ s', download (status_server (scenario false true)) 4 6 "a1" fresh = Returned true s' ∧
         clears "SnipsAssistantDownload" s' = 1%nat ∧ broadcasts s' = []) ∧
  (∃ s', download failing_server 4 6 "a1" fresh = Returned false s' ∧
         clears "SnipsAssistantDownload" s' = 1%nat ∧
         broadcasts s' = ["onSnipsAssistantDownloadFailed"]).
Proof.
  split.
  - destruct (download_clears_signal_exactly_once
                (status_server (scenario false true)) 4 6 "a1" fresh) as (H & _).
    + repeat constructor.
    + vm_compute. discriminate.
    + assert (download (status_server (scenario false true)) 4 6 "a1" fresh =
              Returned true
                (state_of (download (status_server (scenario false true)) 4 6 "a1" fresh) fresh))
        as E by (vm_compute; reflexivity).
      rewrite E in H. destruct H as (H1 & _ & H3).
      eexists. split; [exact E|]. split; [exact H1 | exact H3].
  - destruct (download_clears_signal_exactly_once failing_server 4 6 "a1" fresh) as (H & _).
    + repeat constructor.
    + vm_compute. discriminate.
    + assert (download failing_server 4 6 "a1" fresh =
              Returned false (state_of (download failing_server 4 6 "a1" fresh) fresh))
        as E by (vm_compute; reflexivity).
      rewrite E in H. destruct H as (H1 & _ & H3).
      eexists. split; [exact E|]. split; [exact H1 | exact H3].
Defined.

(** ** One tick of the poll loop, branch by branch *)

Lemma tick_after_fetch env fuel assistantId s t s1 :
  _trainingStatus env fuel assistantId s = Returned t s1 →
  tick env fuel assistantId s =
  match branch t with
  | Done => event_clear "TrainingAssistantLock" s1
  | Wait => Returned tt s1
  | TrainNLU => _trainAssistant env fuel assistantId NLU s1
  | TrainASR => _trainAssistant env fuel assistantId ASR s1
  | Inconsistent => Raised something_went_wrong s1
  end.
Proof. intros H. unfold tick, bind. rewrite H. by destruct (branch t). Qed.

Lemma fetch_commands env fuel assistantId s t s1 :
  _trainingStatus env fuel assistantId s = Returned t s1 →
  commands s1 = commands s.
Proof.
  intros H.
  pose proof (trainingStatus_keeps env _ fuel assistantId s
                (commands_stable (commands s)) eq_refl) as Hk.
  unfold wp in Hk. by rewrite H in Hk.
Qed.

Lemma trainAssistant_commands env fuel assistantId trainingType s :
  wp (_trainAssistant env fuel assistantId trainingType)
     (fun _ s' => commands s' = commands s ++ [SnipsTrainingType_value trainingType])
     (fun _ s' => commands s' = commands s ++ [SnipsTrainingType_value trainingType])
     True s.
Proof.
  unfold _trainAssistant. wp_step.
  eapply wp_mono; [apply req_keeps; [apply commands_stable|]| | |done].
  - cbv beta. rewrite commands_send. unfold command_of. simpl. by rewrite lookup_insert_eq.
  - intros req s' H'. by wp_step.
  - by intros e s' [H' _].
Qed.

(** A tick that fetched [t] adds exactly the commands of [branch t]. *)
Lemma tick_commands env fuel assistantId s t s1 :
  _trainingStatus env fuel assistantId s = Returned t s1 →
  wp (tick env fuel assistantId)
     (fun _ s' => commands s' = commands s ++ branch_commands (branch t))
     (fun _ s' => commands s' = commands s ++ branch_commands (branch t))
     True s.
Proof.
  intros H. unfold wp at 1. rewrite (tick_after_fetch _ _ _ _ _ _ H).
  rewrite <- (fetch_commands _ _ _ _ _ _ H).
  destruct (branch t); simpl; rewrite ?app_nil_r; try done.
  - apply (trainAssistant_commands env fuel assistantId NLU s1).
  - apply (trainAssistant_commands env fuel assistantId ASR s1).
Qed.

(** C10.  Whatever the four flags of the fetched status, the tick takes
    one of the branches Done, Wait, train NLU, train ASR; so no tick ever
    ends in the exception of the final [else]: a tick that raises, raises
    an exception of the transport or of the status fetch. *)
Theorem every_status_has_a_branch :
  (∀ nluNeed nluBusy asrNeed asrBusy : bool,
     let t := {| nluStatus := {| needTraining := nluNeed; inProgress := nluBusy |};
                 asrStatus := {| needTraining := asrNeed; inProgress := asrBusy |} |} in
     branch t = Done ∨ branch t = Wait ∨ branch t = TrainNLU ∨ branch t = TrainASR) ∧
  (∀ env fuel assistantId s,
     match tick env fuel assistantId s with
     | Raised e _ => fetch_exn e ∧ e ≠ something_went_wrong
     | _ => True
     end).
Proof.
  split.
  - intros [] [] [] []; vm_compute; tauto.
  - intros env fuel assistantId s.
    pose proof (tick_keeps env (fun _ => True) fuel assistantId s) as H.
    unfold wp in H. destruct (tick env fuel assistantId s) as [| e s'|]; [done| |done].
    destruct H as [_ H]; [by repeat split|done|].
    split; [done|]. by destruct H as [->|[->|[c ->]]].
Qed.

(** C3, counterexample.  Against the statuses [ASR alone needs training;
    both need training; idle] the run sends 'train ASR' on its first tick
    and 'train NLU' on its second, which is a tick where both sub-models
    need training: a 'train ASR' with no 'train NLU' before it. *)
Lemma asr_can_precede_nlu :
  (∃ s', _handleTraining asr_first_server 4 4 "a1" (init ∅ ∅ "a1") = Returned tt s' ∧
         commands s' = ["asr"; "nlu"]) ∧
  ¬ nlu_always_precedes_asr.
Proof.
  assert (_handleTraining asr_first_server 4 4 "a1" (init ∅ ∅ "a1") =
          Returned tt (state_of (_handleTraining asr_first_server 4 4 "a1" (init ∅ ∅ "a1"))
                         (init ∅ ∅ "a1"))) as Hrun by (vm_compute; reflexivity).
  split.
  - eexists. split; [exact Hrun|]. vm_compute. reflexivity.
  - intros H.
    destruct (H asr_first_server 4%nat 4%nat "a1" (init ∅ ∅ "a1") _ eq_refl
                (f_equal final Hrun) 0%nat) as (j & Hj & _).
    + vm_compute. reflexivity.
    + lia.
Qed.

(** C3, amended.  On a tick whose fetched status has both sub-models
    needing training and none in progress, the poller sends the 'train
    NLU' command and nothing else: the commands sent by that tick are
    exactly ["nlu"], so no 'train ASR' on that tick.  In any run of the
    loop from such a tick on, whatever the service answers later, the
    commands sent start with that "nlu": 'train NLU' comes before any
    'train ASR' of the rest of the run.  And whenever a tick of the
    loop, on any service and from any state, sends a 'train ASR' command,
    the status that tick fetched shows NLU neither needing training nor in
    progress, and what the tick ran after the fetch is
    [_trainAssistant] for ASR. *)
Theorem nlu_is_trained_first env fuel assistantId s t s1 :
  _trainingStatus env fuel assistantId s = Returned t s1 →
  both_need t →
  tick env fuel assistantId s = _trainAssistant env fuel assistantId NLU s1 ∧
  (∀ s', final (tick env fuel assistantId s) = Some s' →
         commands s' = commands s ++ ["nlu"]) ∧
  (∀ ticks s',
     default false (events s !! "TrainingAssistantLock") = true →
     final (poll env fuel ticks assistantId s) = Some s' →
     (commands s ++ ["nlu"]) `prefix_of` commands s') ∧
  (∀ env' fuel' assistantId' s0 t' s0' s',
     _trainingStatus env' fuel' assistantId' s0 = Returned t' s0' →
     final (tick env' fuel' assistantId' s0) = Some s' →
     "asr" ∈ drop (length (commands s0)) (commands s') →
     needTraining (nluStatus t') = false ∧ inProgress (nluStatus t') = false ∧
     tick env' fuel' assistantId' s0 = _trainAssistant env' fuel' assistantId' ASR s0').
Proof.
  intros Hfetch (Hn1 & Hn2 & Ha1 & Ha2).
  assert (branch t = TrainNLU) as Hb.
  { unfold branch. by rewrite Hn1, Hn2, Ha1, Ha2. }
  assert (∀ s', final (tick env fuel assistantId s) = Some s' →
                commands s' = commands s ++ ["nlu"]) as Htick.
  { intros s' Hs'. pose proof (tick_commands _ _ _ _ _ _ Hfetch) as H.
    unfold wp in H. rewrite Hb in H.
    destruct (tick env fuel assistantId s); simplify_eq/=; done. }
  split; [|split; [done|split]].
  - rewrite (tick_after_fetch _ _ _ _ _ _ Hfetch). by rewrite Hb.
  - intros [|ticks] s' Hset; [done|]. simpl.
    unfold bind at 1, event_isSet, gets. rewrite Hset. unfold bind.
    destruct (tick env fuel assistantId s) as [[] s2|e s2|] eqn:Ht; [| |done].
    + specialize (Htick s2 eq_refl). intros Hs'.
      pose proof (poll_keeps env _ fuel assistantId ticks s2
                    (commands_prefix_poll_stable (commands s ++ ["nlu"]))) as H.
      unfold wp in H. rewrite Htick in H. specialize (H (reflexivity _)).
      destruct (poll env fuel ticks assistantId s2); simplify_eq/=; [done|by destruct H].
    + intros [= <-]. by rewrite (Htick s2 eq_refl).
  - intros env' fuel' assistantId' s0 t' s0' s' Hfetch' Hs' Hasr.
    pose proof (tick_commands _ _ _ _ _ _ Hfetch') as H.
    rewrite (tick_after_fetch _ _ _ _ _ _ Hfetch').
    assert (commands s' = commands s0 ++ branch_commands (branch t')) as Hc.
    { unfold wp in H. destruct (tick env' fuel' assistantId' s0); simplify_eq/=; done. }
    rewrite Hc, drop_app_length in Hasr. revert Hasr.
    destruct t' as [[n1 p1] [n2 p2]]. unfold branch. simpl.
    destruct n1, p1, n2, p2; simpl; rewrite ?elem_of_cons, ?elem_of_nil;
      intros Hasr; try done; by destruct Hasr as [|[]].
Qed.

(** C3 on two runs: the first tick against [both_need_server], which
    trains NLU; and the first tick against [asr_first_server], which sends
    'train ASR' on a status where NLU is idle. *)
Lemma nlu_is_trained_first_witness :
  tick both_need_server 4 "a1" both_need_start =
    _trainAssistant both_need_server 4 "a1" NLU both_need_fetched ∧
  commands (state_of (tick both_need_server 4 "a1" both_need_start) both_need_start) = ["nlu"] ∧
  commands (state_of (tick asr_first_server 4 "a1" both_need_start) both_need_start) = ["asr"] ∧
  tick asr_first_server 4 "a1" both_need_start =
    _trainAssistant asr_first_server 4 "a1" ASR
      (state_of (_trainingStatus asr_first_server 4 "a1" both_need_start) both_need_start).
Proof.
  destruct (nlu_is_trained_first both_need_server 4 "a1" both_need_start
              (status true false true false) both_need_fetched) as (H1 & H2 & _ & H4).
  - vm_compute. reflexivity.
  - repeat split.
  - split; [exact H1|]. split; [|split].
    + rewrite (H2 (state_of (tick both_need_server 4 "a1" both_need_start) both_need_start)).
      * vm_compute. reflexivity.
      * vm_compute. reflexivity.
    + vm_compute. reflexivity.
    + apply (H4 asr_first_server 4%nat "a1" both_need_start (status false false true false)
               (state_of (_trainingStatus asr_first_server 4 "a1" both_need_start)
                  both_need_start)
               (state_of (tick asr_first_server 4 "a1" both_need_start) both_need_start)).
      * vm_compute. reflexivity.
      * vm_compute. reflexivity.
      * vm_compute. constructor.
Defined.

(** C2, counterexample.  Against the statuses [both need; idle] the
    first tick trains NLU, so it is not Done, and leaves the lock set; the
    second tick fetches the idle status and returns, with the lock
    cleared, instead of raising: the sentence fails there. *)
Lemma inconsistency_is_not_reported :
  tick both_need_server 4 "a1" both_need_start = Returned tt after_first_tick ∧
  commands after_first_tick = ["nlu"] ∧
  default false (events after_first_tick !! "TrainingAssistantLock") = true ∧
  _trainingStatus both_need_server 4 "a1" after_first_tick =
    Returned (status false false false false) idle_fetched ∧
  tick both_need_server 4 "a1" after_first_tick = Returned tt (lock_cleared idle_fetched) ∧
  ¬ inconsistency_is_reported.
Proof.
  assert (tick both_need_server 4 "a1" both_need_start = Returned tt after_first_tick)
    as H1 by (vm_compute; reflexivity).
  assert (default false (events after_first_tick !! "TrainingAssistantLock") = true)
    as H2 by (vm_compute; reflexivity).
  assert (_trainingStatus both_need_server 4 "a1" after_first_tick =
            Returned (status false false false false) idle_fetched)
    as H3 by (vm_compute; reflexivity).
  assert (tick both_need_server 4 "a1" after_first_tick =
            Returned tt (lock_cleared idle_fetched))
    as H4 by (vm_compute; reflexivity).
  repeat split; try done.
  intros H.
  destruct (H both_need_server 4%nat "a1" both_need_start after_first_tick
              (status false false false false) idle_fetched H1 H2 H3) as [s' Hs'].
  - repeat split.
  - rewrite H4 in Hs'. discriminate Hs'.
Qed.

(** C2, amended.  On a tick whose fetched status is idle, whatever came
    before, the poller takes the Done branch: the tick returns without
    raising, having cleared the lock and sent no training command, and
    the loop stops at its next test. *)
Theorem idle_status_ends_the_loop env fuel assistantId s t s1 :
  _trainingStatus env fuel assistantId s = Returned t s1 →
  idle t →
  tick env fuel assistantId s = Returned tt (lock_cleared s1) ∧
  commands (lock_cleared s1) = commands s ∧
  ∀ ticks, poll env fuel (S ticks) assistantId (lock_cleared s1) =
           Returned tt (lock_cleared s1).
Proof.
  intros Hfetch (Hn1 & Hn2 & Ha1 & Ha2).
  assert (branch t = Done) as Hb.
  { unfold branch. by rewrite Hn1, Hn2, Ha1, Ha2. }
  split; [|split].
  - rewrite (tick_after_fetch _ _ _ _ _ _ Hfetch). by rewrite Hb.
  - exact (fetch_commands _ _ _ _ _ _ Hfetch).
  - intros ticks. simpl. unfold bind, event_isSet, gets. simpl.
    by rewrite lookup_insert_eq.
Qed.

(** C2 on a run: the second tick against [both_need_server]. *)
Lemma idle_status_ends_the_loop_witness :
  tick both_need_server 4 "a1" after_first_tick = Returned tt (lock_cleared idle_fetched) ∧
  poll both_need_server 4 1 "a1" (lock_cleared idle_fetched) =
    Returned tt (lock_cleared idle_fetched).
Proof.
  destruct (idle_status_ends_the_loop both_need_server 4 "a1" after_first_tick
              (status false false false false) idle_fetched) as (H1 & _ & H3).
  - vm_compute. reflexivity.
  - repeat split.
  - split; [exact H1 | exact (H3 0%nat)].
Defined.

(** C4, counterexample.  With five tests of the loop the scenario
    returns, having sent one 'train NLU' and no 'train ASR': the sentence,
    which counts one 'train ASR', fails. *)
Lemma scenario_sends_no_train_asr :
  (∃ s', scenario_run false true 4 5 = Returned tt s' ∧
         count "nlu" (commands s') = 1%nat ∧ count "asr" (commands s') = 0%nat) ∧
  ¬ scenario_as_stated false true.
Proof.
  split.
  - eexists. split; [vm_compute; reflexivity|]. split; vm_compute; reflexivity.
  - intros (s' & Hrun & _ & Hasr).
    vm_compute in Hrun. injection Hrun as <-.
    vm_compute in Hasr. discriminate Hasr.
Qed.

(** C4, amended.  Against the four statuses of the scenario the loop
    sends exactly one 'train NLU' command and no 'train ASR' command (on
    the third tick ASR is already in progress, so the poller waits), it
    fetches the status four times, and it ends Done on the fourth tick:
    the run returns, with the lock cleared once. *)
Theorem scenario_trains_nlu_only nluNeed2 asrNeed3 fuel ticks :
  match scenario_run nluNeed2 asrNeed3 fuel (5 + ticks) with
  | Returned _ s' =>
      commands s' = ["nlu"] ∧
      map rq_method (sent s') = ["get"; "post"; "get"; "get"; "get"] ∧
      cleared s' = ["TrainingAssistantLock"] ∧
      events s' !! "TrainingAssistantLock" = Some false
  | _ => False
  end.
Proof. destruct nluNeed2, asrNeed3; vm_compute; repeat split. Qed.

(** ** Requests and logins, path by path *)

Lemma req_eval env login url method params data s :
  _req_body env login url method params data s =
  match http env (sent s) (request_of s url method params data) with
  | ConnectionError =>
      Raised RequestException (recorded (request_of s url method params data) s)
  | Reply req =>
      if (status_code req =? 401)%Z then
        match login (unauthorized (recorded (request_of s url method params data) s)) with
        | Returned _ s' => Returned req s'
        | Raised e s' => Raised e s'
        | Unfinished => Unfinished
        end
      else Returned req (recorded (request_of s url method params data) s)
  end.
Proof. reflexivity. Qed.

Lemma wp_req_reply env login url method params data s req
    (Q : Response → State → Prop) E u :
  http env (sent s) (request_of s url method params data) = Reply req →
  status_code req ≠ 401%Z →
  Q req (recorded (request_of s url method params data) s) →
  wp (_req_body env login url method params data) Q E u s.
Proof.
  intros H Hc HQ. unfold wp. rewrite req_eval, H.
  by destruct (Z.eqb_spec (status_code req) 401).
Qed.

Lemma wp_req_error env login url method params data s
    (Q : Response → State → Prop) E u :
  http env (sent s) (request_of s url method params data) = ConnectionError →
  E RequestException (recorded (request_of s url method params data) s) →
  wp (_req_body env login url method params data) Q E u s.
Proof. intros H HE. unfold wp. by rewrite req_eval, H. Qed.

Lemma wp_req_unauthorized env login url method params data s req
    (Q : Response → State → Prop) E u :
  http env (sent s) (request_of s url method params data) = Reply req →
  status_code req = 401%Z →
  wp login (fun _ s' => Q req s') E u
     (unauthorized (recorded (request_of s url method params data) s)) →
  wp (_req_body env login url method params data) Q E u s.
Proof.
  intros H Hc HQ. unfold wp. rewrite req_eval, H, Hc. simpl.
  unfold wp in HQ. by destruct (login _).
Qed.

(** A run whose outcome is pinned down. *)
Lemma wp_returned {A} (m : M A) (a : A) s s' :
  wp m (fun x t => x = a ∧ t = s') (fun _ _ => False) False s →
  m s = Returned a s'.
Proof. unfold wp. destruct (m s); [by intros [-> ->]|done..]. Qed.

(** A run whose exception is pinned down. *)
Lemma wp_raised {A} (m : M A) e s s' :
  wp m (fun _ _ => False) (fun x t => x = e ∧ t = s') False s →
  m s = Raised e s'.
Proof. unfold wp. destruct (m s); [done|by intros [-> ->]|done]. Qed.

(** Reading a field through the setters. *)
Ltac fields :=
  cbn [set_connected set_tries set_user set_headers set_isActive set_snipsConf
       set_events set_sent set_cleared set_broadcasts set_tmpfile
       recorded unauthorized
       _connected _tries _user _headers isActive snipsConf aliceConf
       activeSnipsProjectId events sent cleared broadcasts tmpfile fmap option_fmap
       option_map] in *.

Ltac use_lookup :=
  fields;
  repeat match goal with
  | H : ?x = Some _, H' : ?x = Some _ |- _ => rewrite H in H'; injection H' as <-
  | H : ?x = Some _, H' : ?x = None |- _ => rewrite H in H'; discriminate H'
  | H : Some _ = Some _ |- _ => injection H as <-
  | H : Some _ = None |- _ => discriminate H
  end.

Lemma wp_user_id (Q : string → State → Prop) E u s x :
  _user s = Some x → Q (userId x) s → wp user_id Q E u s.
Proof. intros H HQ. unfold user_id. wp_step. wp_step. by rewrite H. Qed.

Lemma login_success env login s token user accessToken tok alias :
  (_tries s < 3)%Z →
  auth_accepted env s token user →
  exchange_granted env s token user accessToken →
  accessToken !! "token" = Some tok →
  accessToken !! "alias" = Some alias →
  _login_body env login s = Returned tt (logged_in env token user tok alias s).
Proof.
  intros Ht (r1 & H1 & Hc1 & Hh1 & Hu1) (r2 & H2 & Hc2 & Hj2) Htok Hal.
  apply wp_returned. unfold _login_body. repeat wp_step.
  { match goal with H : (3 <? _)%Z = true |- _ => apply Z.ltb_lt in H; simpl in H; lia end. }
  eapply wp_req_reply; [exact H1|lia|]. rewrite Hc1. simpl.
  wp_step. unfold _login_try. repeat wp_step; use_lookup.
  unfold _getAccessToken_body. repeat wp_step.
  eapply wp_user_id; [reflexivity|]. wp_step.
  eapply wp_req_reply; [exact H2|lia|]. rewrite Hc2. simpl.
  repeat wp_step; use_lookup.
  - eapply wp_user_id; [reflexivity|]. repeat wp_step; use_lookup. done.
  - match goal with H : bool_decide _ = false |- _ =>
      apply bool_decide_eq_false in H; destruct H end.
    intros ->. by rewrite lookup_empty in Htok.
Qed.

(** The service refuses a login started in [s]: it answers the
    authentication request with a status that is neither 200 nor 401. *)
Lemma refused_login env login s req :
  (_tries s < 3)%Z →
  http env (sent s) (auth_request s) = Reply req →
  status_code req ≠ 200%Z → status_code req ≠ 401%Z →
  _login_body env login s = Returned tt (set_connected false (auth_sent s)).
Proof.
  intros Ht Hhttp H200 H401. apply wp_returned. unfold _login_body. repeat wp_step.
  { match goal with H : (3 <? _)%Z = true |- _ => apply Z.ltb_lt in H; simpl in H; lia end. }
  eapply wp_req_reply; [exact Hhttp|exact H401|].
  destruct (Z.eqb_spec (status_code req) 200); [done|]. by wp_step.
Qed.

(** The transport fails on the authentication request: the login raises,
    the try counted. *)
Lemma dropped_login env login s :
  (_tries s < 3)%Z →
  http env (sent s) (auth_request s) = ConnectionError →
  _login_body env login s = Raised RequestException (auth_sent s).
Proof.
  intros Ht Hhttp. apply wp_raised. unfold _login_body. repeat wp_step.
  { match goal with H : (3 <? _)%Z = true |- _ => apply Z.ltb_lt in H; simpl in H; lia end. }
  by eapply wp_req_error; [exact Hhttp|].
Qed.

(** The authentication request is answered 401: the login goes on as the
    login that the 401 handling nests, and ends not connected. *)
Lemma expired_login env login s req :
  (_tries s < 3)%Z →
  http env (sent s) (auth_request s) = Reply req →
  status_code req = 401%Z →
  _login_body env login s =
    match login (unauthorized (auth_sent s)) with
    | Returned _ s' => Returned tt (set_connected false s')
    | Raised e s' => Raised e s'
    | Unfinished => Unfinished
    end.
Proof.
  intros Ht Hhttp Hc.
  assert (wp (_login_body env login)
             (fun _ s' => ∃ s1, login (unauthorized (auth_sent s)) = Returned tt s1 ∧
                                s' = set_connected false s1)
             (fun e s' => login (unauthorized (auth_sent s)) = Raised e s')
             (login (unauthorized (auth_sent s)) = Unfinished) s) as H.
  { unfold _login_body. repeat wp_step.
    { match goal with H : (3 <? _)%Z = true |- _ =>
        apply Z.ltb_lt in H; simpl in H; lia end. }
    eapply wp_req_unauthorized; [exact Hhttp|exact Hc|].
    unfold wp at 1. change (recorded _ _) with (auth_sent s).
    destruct (login (unauthorized (auth_sent s))) as [[] s1|e s1|]; [|done..].
    rewrite Hc. simpl. wp_step. by exists s1. }
  unfold wp in H. destruct (_login_body env login s) as [[] s'|e s'|].
  - by destruct H as (s1 & -> & ->).
  - by rewrite H.
  - by rewrite H.
Qed.

(** The credentials are accepted and the exchange fails without a 401:
    the login ends not connected, nothing persisted, the try counted. *)
Lemma exchange_refused_login env login s token user :
  (_tries s < 3)%Z →
  auth_accepted env s token user →
  exchange_refused env s token user →
  _login_body env login s =
    Returned tt (set_connected false (exchange_sent env token user s)).
Proof.
  intros Ht (r1 & H1 & Hc1 & Hh1 & Hu1) Href.
  apply wp_returned. unfold _login_body. repeat wp_step.
  { match goal with H : (3 <? _)%Z = true |- _ => apply Z.ltb_lt in H; simpl in H; lia end. }
  eapply wp_req_reply; [exact H1|lia|]. rewrite Hc1. simpl.
  wp_step. unfold _login_try. repeat wp_step; use_lookup.
  unfold _getAccessToken_body. repeat wp_step.
  eapply wp_user_id; [reflexivity|]. wp_step.
  destruct Href as [H2|(r2 & H2 & Hc2 & Hc2')].
  - eapply wp_req_error; [exact H2|]. by wp_step.
  - eapply wp_req_reply; [exact H2|done|].
    destruct (Z.eqb_spec (status_code r2) 201); [done|].
    repeat wp_step; try done.
Qed.

Lemma wp_any {A} (m : M A) s : wp m anything anything True s.
Proof. unfold wp, anything. by destruct (m s). Qed.

(** A login that returns with the session connected has reset the
    counter. *)
Lemma login_connected_resets env login s :
  wp (_login_body env login)
     (fun _ s' => _connected s' = true → _tries s' = 0%Z) anything True s.
Proof.
  unfold _login_body. repeat wp_step; [done|].
  eapply wp_mono; [apply wp_any| |done..].
  intros req s1 _. repeat wp_step; [|done].
  unfold _login_try. repeat wp_step; try done.
  eapply wp_mono; [apply wp_any| |intros; by wp_step|done].
  intros accessToken s2 _. repeat wp_step; try done.
  eapply wp_mono; [apply wp_any| |intros; by wp_step|done].
  intros uid s3 _. by repeat wp_step.
Qed.

(** C6.  The counter of tries never leaves 0..3 across a login: from a
    state where it is within these bounds, every state a [_login] ends
    in has it within them.  A login started with three tries behind it
    is the fourth: it puts the counter back to 0 and returns, with no
    exception and no request sent.  A login whose credentials are
    accepted and whose exchange is granted with a token and an alias
    returns connected with the counter at 0; and, generally, whenever a
    login returns with the session connected the counter is 0.
    A login that fails is counted, and the counter is not reset: below
    the bound, a login whose authentication is refused (a status that is
    neither 200 nor 401) sends that one request and returns not connected
    with the counter one higher; so does a login whose credentials are
    accepted and whose exchange fails without a 401; a login on whose
    authentication request the transport fails raises with the counter
    one higher; and a login whose authentication request is answered 401
    goes on as the nested login of the 401 handling, which starts from
    the counter one higher. *)
Theorem login_tries_never_exceed_three env fuel s :
  tries_ok s →
  (∀ s', final (_login env fuel s) = Some s' → tries_ok s') ∧
  (_tries s = 3%Z → _login env (S fuel) s = Returned tt (set_tries 0 s)) ∧
  (∀ token user accessToken tok alias,
     (_tries s < 3)%Z →
     auth_accepted env s token user →
     exchange_granted env s token user accessToken →
     accessToken !! "token" = Some tok →
     accessToken !! "alias" = Some alias →
     ∃ s', _login env (S fuel) s = Returned tt s' ∧
           _connected s' = true ∧ _tries s' = 0%Z) ∧
  (∀ s', _login env fuel s = Returned tt s' →
         _connected s' = true → _tries s' = 0%Z) ∧
  (∀ req,
     (_tries s < 3)%Z →
     http env (sent s) (auth_request s) = Reply req →
     status_code req ≠ 200%Z → status_code req ≠ 401%Z →
     ∃ s', _login env (S fuel) s = Returned tt s' ∧
           _connected s' = false ∧ _tries s' = (_tries s + 1)%Z ∧
           sent s' = sent s ++ [auth_request s]) ∧
  (∀ token user,
     (_tries s < 3)%Z →
     auth_accepted env s token user →
     exchange_refused env s token user →
     ∃ s', _login env (S fuel) s = Returned tt s' ∧
           _connected s' = false ∧ _tries s' = (_tries s + 1)%Z ∧
           length (sent s') = (length (sent s) + 2)%nat) ∧
  ((_tries s < 3)%Z →
   http env (sent s) (auth_request s) = ConnectionError →
   ∃ s', _login env (S fuel) s = Raised RequestException s' ∧
         _tries s' = (_tries s + 1)%Z ∧
         sent s' = sent s ++ [auth_request s]) ∧
  (∀ req,
     (_tries s < 3)%Z →
     http env (sent s) (auth_request s) = Reply req →
     status_code req = 401%Z →
     _tries (unauthorized (auth_sent s)) = (_tries s + 1)%Z ∧
     _login env (S fuel) s =
       match _login env fuel (unauthorized (auth_sent s)) with
       | Returned _ s' => Returned tt (set_connected false s')
       | Raised e s' => Raised e s'
       | Unfinished => Unfinished
       end).
Proof.
  intros Hok. split; [|split; [|split; [|split; [|split; [|split; [|split]]]]]].
  - intros s' Hs'.
    pose proof (login_keeps env tries_ok tries_ok_stable fuel s Hok) as H.
    unfold wp, escapes in H.
    destruct (_login env fuel s); simplify_eq/=; [done|by destruct H].
  - intros H3. simpl. apply login_body_gives_up. lia.
  - intros token user accessToken tok alias Ht Ha He Htok Hal.
    eexists. split;
      [simpl; by apply (login_success env _ s token user accessToken tok alias)|done].
  - intros s' Hs' Hc. destruct fuel as [|fuel]; [done|].
    pose proof (login_connected_resets env (_login env fuel) s) as H.
    unfold wp in H. simpl in Hs'. rewrite Hs' in H. by apply H.
  - intros req Ht Hhttp H200 H401.
    exists (set_connected false (auth_sent s)). split; [|done].
    simpl. by apply (refused_login env _ s req).
  - intros token user Ht Hauth Href.
    exists (set_connected false (exchange_sent env token user s)).
    split; [|split; [done|split; [done|]]].
    + simpl. by apply (exchange_refused_login env _ s token user).
    + unfold exchange_sent, exchange_start, auth_sent. fields.
      rewrite !length_app. simpl. lia.
  - intros Ht Hhttp. exists (auth_sent s). split; [|done].
    simpl. by apply dropped_login.
  - intros req Ht Hhttp Hc. split; [done|].
    simpl. by apply (expired_login env _ s req).
Qed.

(** C6 on runs: against [granting_server], a login started at three
    tries and a login that succeeds; against a service that answers every
    request with a 403, three logins in a row, each one counted, and the
    fourth, which gives up. *)
Lemma login_tries_never_exceed_three_witness :
  _login granting_server 1 (set_tries 3 fresh) = Returned tt (set_tries 0 (set_tries 3 fresh)) ∧
  (∃ s', _login granting_server 1 fresh = Returned tt s' ∧
         _connected s' = true ∧ _tries s' = 0%Z) ∧
  tries_ok (state_of (_login granting_server 1 fresh) fresh) ∧
  (∃ s1 s2 s3,
     _login forbidding_server 1 fresh = Returned tt s1 ∧ _tries s1 = 1%Z ∧
     _login forbidding_server 1 s1 = Returned tt s2 ∧ _tries s2 = 2%Z ∧
     _login forbidding_server 1 s2 = Returned tt s3 ∧ _tries s3 = 3%Z ∧
     length (sent s3) = 3%nat ∧
     _login forbidding_server 1 s3 = Returned tt (set_tries 0 s3)).
Proof.
  split; [|split; [|split]].
  - apply (login_tries_never_exceed_three granting_server 0 (set_tries 3 fresh));
      [vm_compute; split; discriminate | reflexivity].
  - destruct (login_tries_never_exceed_three granting_server 0 fresh) as (_ & _ & H & _);
      [vm_compute; split; discriminate|].
    apply (H "RAW" alice (<["alias" := "A"]> (<["token" := "T"]> ∅)) "T" "A").
    + vm_compute. reflexivity.
    + exists (auth_reply "RAW" alice). repeat split.
    + exists (token_reply 201 (<["alias" := "A"]> (<["token" := "T"]> ∅))).
      repeat split.
    + reflexivity.
    + reflexivity.
  - destruct (login_tries_never_exceed_three granting_server 1 fresh) as (H & _);
      [vm_compute; split; discriminate|].
    apply H. vm_compute. reflexivity.
  - destruct (login_tries_never_exceed_three forbidding_server 0 fresh)
      as (_ & _ & _ & _ & H & _); [vm_compute; split; discriminate|].
    destruct (H (plain 403)) as (s1 & R1 & _ & T1 & S1);
      [vm_compute; reflexivity|reflexivity|discriminate|discriminate|].
    destruct (login_tries_never_exceed_three forbidding_server 0 s1)
      as (_ & _ & _ & _ & H1 & _);
      [unfold tries_ok; rewrite T1; vm_compute; split; discriminate|].
    destruct (H1 (plain 403)) as (s2 & R2 & _ & T2 & S2);
      [rewrite T1; vm_compute; reflexivity|reflexivity|discriminate|discriminate|].
    destruct (login_tries_never_exceed_three forbidding_server 0 s2)
      as (_ & _ & _ & _ & H2 & _);
      [unfold tries_ok; rewrite T2, T1; vm_compute; split; discriminate|].
    destruct (H2 (plain 403)) as (s3 & R3 & _ & T3 & S3);
      [rewrite T2, T1; vm_compute; reflexivity|reflexivity|discriminate|discriminate|].
    destruct (login_tries_never_exceed_three forbidding_server 0 s3)
      as (_ & H3 & _);
      [unfold tries_ok; rewrite T3, T2, T1; vm_compute; split; discriminate|].
    exists s1, s2, s3.
    split; [exact R1|]. split; [rewrite T1; reflexivity|].
    split; [exact R2|]. split; [rewrite T2, T1; reflexivity|].
    split; [exact R3|]. split; [rewrite T3, T2, T1; reflexivity|].
    split; [rewrite S3, S2, S1; reflexivity|].
    apply H3. rewrite T3, T2, T1. reflexivity.
Defined.

(** ** What a login sends *)

Lemma sent_since_send base s rq :
  login_request rq → sent_since base s → sent_since base (recorded rq s).
Proof.
  intros Hrq (l & Hl & Hf). exists (l ++ [rq]). split.
  - fields. by rewrite Hl, app_assoc.
  - apply Forall_app. split; [done|]. constructor; [exact Hrq|constructor].
Qed.

(** A POST to a user endpoint is a request of a login. *)
Lemma user_endpoint_post s rest data :
  login_request (request_of s ("/v1/user/" +:+ rest) "post" None data).
Proof. split; [done|]. simpl. by destruct rest. Qed.

Section LoginRequests.

Variable env : World.
Variable login : M unit.
Variable base : list Request.
Hypothesis login_sends :
  ∀ s, sent_since base s →
       wp login (fun _ => sent_since base) (fun _ => sent_since base) True s.

Lemma req_body_sends url method params data s :
  sent_since base (recorded (request_of s url method params data) s) →
  wp (_req_body env login url method params data)
     (fun _ => sent_since base) (fun _ => sent_since base) True s.
Proof using login_sends.
  intros H. unfold wp. rewrite req_eval.
  destruct (http env _ _) as [|req]; [exact H|].
  destruct (status_code req =? 401)%Z; [|exact H].
  pose proof (login_sends
                (unauthorized (recorded (request_of s url method params data) s)) H) as Hl.
  unfold wp in Hl. by destruct (login _).
Qed.

Lemma login_try_sends req s :
  sent_since base s →
  wp (_login_try env login req) (fun _ => sent_since base) (fun _ => sent_since base) True s.
Proof using login_sends.
  intros H. unfold _login_try. repeat wp_step; try done.
  unfold _getAccessToken_body. repeat wp_step.
  apply (user_id_keeps True); [|done]. intros uid. wp_step.
  eapply wp_mono; [apply req_body_sends| |done..].
  - apply sent_since_send; [|exact H].
    exact (user_endpoint_post _ (uid +:+ "/accesstoken") _).
  - intros r s1 Hs1. repeat wp_step; try done.
    all: apply (user_id_keeps True); [|done]; intros; by repeat wp_step.
Qed.

Lemma login_body_sends s :
  sent_since base s →
  wp (_login_body env login) (fun _ => sent_since base) (fun _ => sent_since base) True s.
Proof using login_sends.
  intros H. unfold _login_body. repeat wp_step; [exact H|].
  eapply wp_mono; [apply req_body_sends| |done..].
  - apply sent_since_send; [|exact H].
    exact (user_endpoint_post _ "auth" _).
  - intros req s1 H1. repeat wp_step; [|exact H1].
    eapply wp_mono; [apply login_try_sends, H1|done| |done].
    intros e s2 H2. by wp_step.
Qed.

End LoginRequests.

(** Whatever a login sends is a request of a login. *)
Lemma login_sends_login_requests env fuel base s :
  sent_since base s →
  wp (_login env fuel) (fun _ => sent_since base) (fun _ => sent_since base) True s.
Proof.
  revert s. induction fuel as [|fuel IH]; intros s H; [exact Logic.I|].
  by apply login_body_sends.
Qed.

(** C5, counterexample.  The service answers a request with a 401 and
    the transport then fails on the authentication request of the login
    that the handling starts: [_req] ends in the exception of the
    transport, and the 401 response is not returned to the caller.  And
    against a service that answers everything with a 401, the
    authentication request of a login, itself answered 401, goes out
    again with each login that the handling nests: the same request is
    sent three times. *)
Lemma unauthorized_response_can_be_lost :
  (∃ s', _req dropping_server 4 "/v3/assistant" "get" None None fresh =
           Raised RequestException s' ∧
         _connected s' = false ∧
         map rq_url (sent s') = ["https://external-gateway.snips.ai/v3/assistant";
                                 "https://external-gateway.snips.ai/v1/user/auth"]) ∧
  (∃ s', _login rejecting_server 4 fresh = Returned tt s' ∧
         sent s' = [auth_request fresh; auth_request fresh; auth_request fresh]) ∧
  ¬ unauthorized_response_is_returned.
Proof.
  assert (_req dropping_server 4 "/v3/assistant" "get" None None fresh =
          Raised RequestException
            (state_of (_req dropping_server 4 "/v3/assistant" "get" None None fresh) fresh))
    as Hrun by (vm_compute; reflexivity).
  split; [|split].
  - eexists. split; [exact Hrun|]. split; vm_compute; reflexivity.
  - eexists. split; vm_compute; reflexivity.
  - intros H.
    destruct (H dropping_server 4%nat "/v3/assistant" "get" None None fresh (plain 401))
      as (s' & l & Hret & _).
    + lia.
    + vm_compute. discriminate.
    + reflexivity.
    + reflexivity.
    + rewrite Hrun in Hret. discriminate Hret.
Qed.

(** C5, amended.  When the service answers a request of [_req] with a
    response [req]:
    - if its status is 401, the handling leaves the state [unauthorized]
      (the four persisted keys blank, no Authorization header, session
      not connected, the request recorded once); the public [login()]
      run from that state is the [_login] that [_req] runs; and [_req]
      ends exactly as that login attempt ends: it returns [req] itself
      when the attempt returns, and when the attempt raises, which it
      does only on a transport error, that exception propagates and no
      response is returned; with fuel for four nested logins the call
      does end.  [_req] does not send the request again: whatever is sent
      after it is sent by the login attempt, and is a POST to a user
      endpoint (an authentication or an access-token exchange);
    - if its status is anything else, [_req] returns [req] and the only
      change of state is that the request is recorded. *)
Theorem unauthorized_response_is_handled env fuel url method params data s req :
  http env (sent s) (request_of s url method params data) = Reply req →
  let rq := request_of s url method params data in
  let s2 := unauthorized (recorded rq s) in
  ((status_code req = 401)%Z →
     on_unauthorized (recorded rq s) = Returned tt s2 ∧
     (∀ key, key ∈ credential_keys →
             snipsConf s2 !! ("project-alice", key) = Some "") ∧
     _headers s2 !! "Authorization" = None ∧
     _connected s2 = false ∧
     sent s2 = sent s ++ [rq] ∧
     login env fuel s2 = _login env fuel s2 ∧
     _req env fuel url method params data s =
       match _login env fuel s2 with
       | Returned _ s' => Returned req s'
       | Raised e s' => Raised e s'
       | Unfinished => Unfinished
       end ∧
     ((4 ≤ fuel)%nat → (0 ≤ _tries s)%Z →
      _req env fuel url method params data s ≠ Unfinished) ∧
     match _req env fuel url method params data s with
     | Returned r s' =>
         r = req ∧
         ∃ l, sent s' = sent s ++ rq :: l ∧ Forall login_request l ∧
              (¬ login_request rq → rq ∉ l)
     | Raised e s' =>
         e = RequestException ∧
         ∃ l, sent s' = sent s ++ rq :: l ∧ Forall login_request l ∧
              (¬ login_request rq → rq ∉ l)
     | Unfinished => True
     end) ∧
  ((status_code req ≠ 401)%Z →
     _req env fuel url method params data s = Returned req (recorded rq s)).
Proof.
  intros H rq s2. split.
  - intros Hc.
    assert (_req env fuel url method params data s =
            match _login env fuel s2 with
            | Returned _ s' => Returned req s'
            | Raised e s' => Raised e s'
            | Unfinished => Unfinished
            end) as Heq.
    { unfold _req. rewrite req_eval. by rewrite H, Hc. }
    split; [done|]. split; [|split; [|split; [done|split; [done|split; [done|split;
      [exact Heq|split]]]]]].
    + intros key Hkey. unfold credential_keys in Hkey. subst s2. fields.
      repeat (apply elem_of_cons in Hkey as [->|Hkey]);
        [..|by apply elem_of_nil in Hkey];
        repeat (rewrite lookup_insert_ne by done); apply lookup_insert_eq.
    + subst s2. fields. apply lookup_delete_eq.
    + intros Hf Ht Hu.
      pose proof (req_finishes env fuel url method params data s Hf Ht) as Hfin.
      unfold wp in Hfin. by rewrite Hu in Hfin.
    + rewrite Heq.
      pose proof (login_keeps env _ trivially_stable fuel s2 Logic.I) as Hexn.
      assert (sent_since (sent s ++ [rq]) s2) as Hbase.
      { exists []. split; [by rewrite app_nil_r|done]. }
      pose proof (login_sends_login_requests env fuel _ s2 Hbase) as Hsent.
      unfold wp, escapes, sent_since in Hexn, Hsent.
      assert (∀ l, Forall login_request l → ¬ login_request rq → rq ∉ l) as Hnot.
      { intros l Hf Hrq Hin. by apply Hrq, (proj1 (Forall_forall _ _) Hf). }
      destruct (_login env fuel s2) as [[] s'|e s'|]; [| |done].
      * split; [done|]. destruct Hsent as (l & Hl & Hf).
        exists l. rewrite Hl, <- app_assoc. split; [done|split; [done|by apply Hnot]].
      * split; [by destruct Hexn|]. destruct Hsent as (l & Hl & Hf).
        exists l. rewrite Hl, <- app_assoc. split; [done|split; [done|by apply Hnot]].
  - intros Hc. unfold _req. rewrite req_eval. rewrite H.
    by destruct (Z.eqb_spec (status_code req) 401).
Qed.

(** C5 on three runs: a request answered 401 and followed by a login
    that succeeds, one answered 401 and followed by a login on which the
    transport fails, and one answered 200. *)
Lemma unauthorized_response_is_handled_witness :
  _req expiring_server 4 "/v3/assistant" "get" None None fresh =
    match _login expiring_server 4
            (unauthorized (recorded (request_of fresh "/v3/assistant" "get" None None) fresh)) with
    | Returned _ s' => Returned (plain 401) s'
    | Raised e s' => Raised e s'
    | Unfinished => Unfinished
    end ∧
  match _req dropping_server 4 "/v3/assistant" "get" None None fresh with
  | Returned r s' => False
  | Raised e s' =>
      e = RequestException ∧
      ∃ l, sent s' = sent fresh ++ request_of fresh "/v3/assistant" "get" None None :: l ∧
           Forall login_request l ∧
           request_of fresh "/v3/assistant" "get" None None ∉ l
  | Unfinished => False
  end ∧
  _req granting_server 4 "/v3/assistant" "get" None None fresh =
    Returned (auth_reply "RAW" alice)
      (recorded (request_of fresh "/v3/assistant" "get" None None) fresh).
Proof.
  split; [|split].
  - destruct (unauthorized_response_is_handled expiring_server 4 "/v3/assistant" "get"
                None None fresh (plain 401) eq_refl) as [H _].
    destruct (H eq_refl) as (_ & _ & _ & _ & _ & _ & Heq & _). exact Heq.
  - destruct (unauthorized_response_is_handled dropping_server 4 "/v3/assistant" "get"
                None None fresh (plain 401) eq_refl) as [H _].
    destruct (H eq_refl) as (_ & _ & _ & _ & _ & _ & _ & _ & Hm).
    assert (_req dropping_server 4 "/v3/assistant" "get" None None fresh =
            Raised RequestException
              (state_of (_req dropping_server 4 "/v3/assistant" "get" None None fresh) fresh))
      as Hrun by (vm_compute; reflexivity).
    rewrite Hrun in Hm |- *. destruct Hm as (He & l & Hl & Hf & Hnot).
    split; [exact He|]. exists l. split; [exact Hl|]. split; [exact Hf|].
    apply Hnot. intros [Hget _]. discriminate Hget.
  - destruct (unauthorized_response_is_handled granting_server 4 "/v3/assistant" "get"
                None None fresh (auth_reply "RAW" alice) eq_refl) as [_ H].
    apply H. discriminate.
Defined.

(** C7, counterexample.  The exchange of the login gets a 401; the
    401 handling blanks the keys and starts a login of its own, which
    succeeds and persists its credentials; the outer login then ends not
    connected, with a persisted token that was not there before. *)
Lemma failed_exchange_is_not_atomic :
  (∃ s', _login relogin_server 4 fresh = Returned tt s' ∧
         _connected s' = false ∧
         snipsConf s' !! ("project-alice", "console_token") = Some "T2" ∧
         snipsConf fresh !! ("project-alice", "console_token") = None) ∧
  ¬ failed_exchange_is_atomic.
Proof.
  split.
  - eexists. split; [vm_compute; reflexivity|]. repeat split.
  - intros H.
    destruct (H relogin_server 3%nat fresh "RAW" alice (plain 401))
      as (s' & Hrun & _ & Hconf).
    + vm_compute. reflexivity.
    + exists (auth_reply "RAW" alice). repeat split.
    + reflexivity.
    + discriminate.
    + vm_compute in Hrun. injection Hrun as <-.
      apply (f_equal (fun c => c !! ("project-alice", "console_token"))) in Hconf.
      vm_compute in Hconf. discriminate Hconf.
Qed.

(** C7, amended.  If, during a login, the access-token request fails
    with a transport error or returns a status that is neither 201 nor
    401, the login returns with the session marked as not connected and
    the persisted Snips configuration exactly as it was before the
    login: none of the four credential keys is written. *)
Theorem failed_exchange_persists_nothing env fuel s token user :
  (_tries s < 3)%Z →
  auth_accepted env s token user →
  exchange_refused env s token user →
  _login env (S fuel) s =
    Returned tt (set_connected false (exchange_sent env token user s)) ∧
  _connected (set_connected false (exchange_sent env token user s)) = false ∧
  snipsConf (set_connected false (exchange_sent env token user s)) = snipsConf s.
Proof.
  intros Ht Hauth Href. split; [|done].
  simpl. by apply (exchange_refused_login env _ s token user).
Qed.

(** C7 on a run: the exchange is answered 500. *)
Lemma failed_exchange_persists_nothing_witness :
  _login refusing_server 1 fresh =
    Returned tt (set_connected false (exchange_sent refusing_server "RAW" alice fresh)) ∧
  snipsConf (set_connected false (exchange_sent refusing_server "RAW" alice fresh)) =
    snipsConf fresh.
Proof.
  destruct (failed_exchange_persists_nothing refusing_server 0 fresh "RAW" alice)
    as (H1 & _ & H3).
  - vm_compute. reflexivity.
  - exists (auth_reply "RAW" alice). repeat split.
  - right. exists (plain 500). repeat split; discriminate.
  - split; [exact H1 | exact H3].
Defined.

(** A fully successful login writes the four keys. *)
Lemma logged_in_credentials env token user tok alias s :
  let s' := logged_in env token user tok alias s in
  snipsConf s' !! ("project-alice", "console_token") = Some tok ∧
  snipsConf s' !! ("project-alice", "console_alias") = Some alias ∧
  snipsConf s' !! ("project-alice", "console_user_id") = Some (userId user) ∧
  snipsConf s' !! ("project-alice", "console_user_email") = Some (userEmail user).
Proof.
  unfold logged_in. fields.
  repeat split; repeat (rewrite lookup_insert_ne by done); apply lookup_insert_eq.
Qed.

(** A logout that returns has blanked the four keys. *)
Lemma logout_blanks_credentials env fuel s :
  wp (_logout env fuel) (fun _ => credentials_blank) anything True s.
Proof.
  unfold _logout. wp_step. unfold user_id. repeat wp_step; [|done].
  eapply wp_mono; [apply wp_any| |done..].
  intros req s' _. repeat wp_step.
  intros key Hkey. unfold credential_keys in Hkey. fields.
  repeat (apply elem_of_cons in Hkey as [->|Hkey]);
    [..|by apply elem_of_nil in Hkey];
    repeat (rewrite lookup_insert_ne by done); apply lookup_insert_eq.
Qed.

(** C8, at the failing input.  When the granted token dict lacks its
    alias, the login writes [console_token] and then stops on the missing
    key: one of the four keys is persisted, the other three are not, and
    the session is not connected. *)
Theorem login_persists_token_alone :
  match _login aliasless_server 1 fresh with
  | Returned _ s' =>
      snipsConf s' !! ("project-alice", "console_token") = Some "T" ∧
      snipsConf s' !! ("project-alice", "console_alias") = None ∧
      snipsConf s' !! ("project-alice", "console_user_id") = None ∧
      snipsConf s' !! ("project-alice", "console_user_email") = None ∧
      _connected s' = false
  | _ => False
  end.
Proof. vm_compute. repeat split. Qed.

(** C9, at the failing input.  After an exchange that failed with a
    500, the next request (a status fetch, not an exchange) goes out with
    the raw bearer token as its Authorization header: that header is
    still in the manager's headers, and the session is not connected. *)
Theorem raw_token_outlives_failed_exchange :
  match (run _login stale_header_server 1;
         _trainingStatus stale_header_server 1 "a1") fresh with
  | Returned _ s' =>
      the_authorizations s' = [None; Some "RAW"; Some "RAW"] ∧
      map rq_method (sent s') = ["post"; "post"; "get"] ∧
      _headers s' !! "Authorization" = Some "RAW" ∧
      _connected s' = false
  | _ => False
  end.
Proof. vm_compute. repeat split. Qed.

(** * More verified properties *)

(** ** What escapes a login *)

(** X1.  Whatever the service answers, [_login], [_req], [login] and
    [onStart] raise nothing but the exception of the transport: a missing
    authorization header, a body without user or token, a token dict
    without its keys and a refused exchange are all swallowed by the
    [except] block of [_login]. *)
Theorem only_transport_errors_escape env fuel s :
  match _login env fuel s with Raised e _ => e = RequestException | _ => True end ∧
  (∀ url method params data,
     match _req env fuel url method params data s with
     | Raised e _ => e = RequestException
     | _ => True
     end) ∧
  match login env fuel s with Raised e _ => e = RequestException | _ => True end ∧
  match onStart env fuel s with Raised e _ => e = RequestException | _ => True end.
Proof.
  assert (∀ s, match _login env fuel s with
               | Raised e _ => e = RequestException | _ => True end) as Hlogin.
  { intros s0. pose proof (login_keeps env _ trivially_stable fuel s0 Logic.I) as H.
    unfold wp, escapes in H. destruct (_login env fuel s0); [done|by destruct H|done]. }
  split; [apply Hlogin|split; [|split]].
  - intros url method params data.
    pose proof (req_keeps env _ trivially_stable fuel url method params data s Logic.I) as H.
    unfold wp, escapes in H. destruct (_req env fuel _ _ _ _ s); [done|by destruct H|done].
  - unfold login, bind, gets. destruct (_connected s); [done|apply Hlogin].
  - cut (wp (onStart env fuel) anything (fun e _ => e = RequestException) True s).
    { unfold wp. by destruct (onStart env fuel s). }
    unfold onStart, loginCredentialsAreConfigured. repeat wp_step; try done.
    eapply wp_mono; [by apply (login_keeps env _ trivially_stable)|done| |done].
    by intros e s' [_ ->].
Qed.

(** ** The alias of the access token *)

Lemma remove_dashes_occurs s : occurs "-" (remove_dashes s) = false.
Proof.
  induction s as [|c s IH]; [done|]. simpl.
  destruct (Ascii.eqb c "-") eqn:E; [done|]. simpl. by rewrite E.
Qed.

Lemma substring_occurs c n m s :
  occurs c s = false → occurs c (substring n m s) = false.
Proof.
  revert n m. induction s as [|c' s IH]; intros n m H; [by destruct n, m|].
  simpl in H. apply orb_false_iff in H as [H1 H2].
  destruct n as [|n]; simpl.
  - destruct m as [|m]; [done|]. simpl. by rewrite H1, IH.
  - by apply IH.
Qed.

Lemma substring_length m s :
  String.length (substring 0 m s) = Nat.min m (String.length s).
Proof.
  revert m. induction s as [|c s IH]; intros [|m]; simpl; try done.
  by rewrite IH.
Qed.

Lemma append_length a b :
  String.length (a +:+ b) = (String.length a + String.length b)%nat.
Proof. induction a as [|c a IH]; simpl; [done|by rewrite IH]. Qed.

Lemma make_alias_eq uuid :
  make_alias uuid = "projectalice" +:+ substring 0 17 (remove_dashes uuid).
Proof. reflexivity. Qed.

Lemma sent_prefix_stable (l : list Request) : stable (fun s => l `prefix_of` sent s).
Proof.
  split; try (simpl; intros; done).
  simpl. intros s rq _ H. by apply prefix_app_r.
Qed.

(** X2.  The exchange request of [_getAccessToken].  Whatever happens
    next, the first request the function sends is a POST to
    [/v1/user/<userId>/accesstoken] whose Authorization header is the raw
    token it was given and whose body is an alias; the alias is
    "projectalice" followed by the first 17 characters of the uuid that
    are not dashes, so it has no dash and at most 29 characters, and
    exactly 29 when the uuid has at least 17 characters besides its
    dashes. *)
Theorem exchange_request_carries_alias env fuel token s user s' :
  _user s = Some user →
  final (_getAccessToken env fuel token s) = Some s' →
  let alias := make_alias (uuid4 env (length (sent s))) in
  sent s' !! length (sent s) =
    Some {| rq_method := "post";
            rq_url := "https://external-gateway.snips.ai" +:+
                      "/v1/user/" +:+ userId user +:+ "/accesstoken";
            rq_params := None;
            rq_json := Some (<["alias" := alias]> ∅);
            rq_headers := <["Authorization" := token]> (_headers s) |} ∧
  alias = "projectalice" +:+
          substring 0 17 (remove_dashes (uuid4 env (length (sent s)))) ∧
  occurs "-" alias = false ∧
  (String.length alias ≤ 29)%nat ∧
  ((17 ≤ String.length (remove_dashes (uuid4 env (length (sent s)))))%nat →
   String.length alias = 29%nat).
Proof.
  intros Hu Hs' alias.
  split; [|split; [apply make_alias_eq|split; [|split]]].
  - set (rq := {| rq_method := "post"; rq_url := _; rq_params := None;
                  rq_json := Some (<["alias" := alias]> ∅);
                  rq_headers := <["Authorization" := token]> (_headers s) |}).
    cut (wp (_getAccessToken env fuel token)
            (fun _ s' => (sent s ++ [rq]) `prefix_of` sent s')
            (fun _ s' => (sent s ++ [rq]) `prefix_of` sent s') True s).
    { unfold wp. destruct (_getAccessToken env fuel token s); simplify_eq/=.
      - intros [k ->]. rewrite <- app_assoc. by apply list_lookup_middle.
      - intros [k ->]. rewrite <- app_assoc. by apply list_lookup_middle. }
    unfold _getAccessToken, _getAccessToken_body. repeat wp_step.
    eapply wp_user_id; [exact Hu|]. wp_step.
    eapply wp_mono;
      [apply (req_body_keeps env _ (sent_prefix_stable (sent s ++ [rq])) True (_login env fuel))
      | |by intros ?? []|done].
    + intros s0 H0. by apply login_keeps; [apply sent_prefix_stable|].
    + done.
    + intros req s0 H0. by repeat wp_step.
  - apply substring_occurs, remove_dashes_occurs.
  - unfold alias, make_alias. rewrite substring_length. lia.
  - intros H. unfold alias. rewrite make_alias_eq, append_length, substring_length.
    by rewrite Nat.min_l.
Qed.

(** X2 on a run: the exchange of a login against [granting_server]. *)
Lemma exchange_request_carries_alias_witness :
  (rq_json <$> sent (state_of (_getAccessToken granting_server 1 "RAW"
                                (set_user (Some alice) fresh)) fresh) !! 0%nat) =
    Some (Some (<["alias" := "projectalice123e4567e89b12d3a"]> ∅)).
Proof.
  destruct (exchange_request_carries_alias granting_server 1 "RAW"
              (set_user (Some alice) fresh) alice
              (state_of (_getAccessToken granting_server 1 "RAW"
                           (set_user (Some alice) fresh)) fresh))
    as (H & _).
  - reflexivity.
  - vm_compute. reflexivity.
  - exact (f_equal (fmap rq_json) H).
Defined.

(** ** A connected session sends the persisted token *)

Lemma authorized_disconnected s : _connected s = false → authorized s.
Proof. intros H H'. by rewrite H in H'. Qed.

Section Authorized.

Variable env : World.
Variable login : M unit.
Hypothesis login_after_401 :
  ∀ s, _connected s = false →
       wp login (fun _ => authorized) (fun _ => authorized) True s.

Lemma req_body_authorized url method params data s :
  authorized s →
  wp (_req_body env login url method params data)
     (fun _ => authorized) (fun _ => authorized) True s.
Proof using login_after_401.
  intros H. unfold wp. rewrite req_eval.
  destruct (http env _ _) as [|req]; [exact H|].
  destruct (status_code req =? 401)%Z; [|exact H].
  pose proof (login_after_401
                (unauthorized (recorded (request_of s url method params data) s))
                eq_refl) as Hl.
  unfold wp in Hl. by destruct (login _).
Qed.

(** The [try] block ends connected only through its last lines, which
    set the header from the token they have just persisted. *)
Lemma login_try_authorized req s :
  wp (_login_try env login req) (fun _ => authorized) anything True s.
Proof.
  unfold _login_try. repeat wp_step; try done.
  eapply wp_mono; [apply wp_any| |done..].
  intros accessToken s1 _. repeat wp_step; try done.
  unfold user_id. repeat wp_step; try done.
  use_lookup. intros _. fields.
  rewrite lookup_insert_eq. repeat (rewrite lookup_insert_ne by done).
  by rewrite lookup_insert_eq.
Qed.

Lemma login_body_authorized s :
  authorized s →
  wp (_login_body env login) (fun _ => authorized) (fun _ => authorized) True s.
Proof using login_after_401.
  intros H. unfold _login_body. repeat wp_step; [exact H|].
  eapply wp_mono; [apply req_body_authorized; exact H| |done..].
  intros req s1 H1. repeat wp_step.
  - eapply wp_mono; [apply login_try_authorized|done| |done].
    intros e s2 _. wp_step. by apply authorized_disconnected.
  - by apply authorized_disconnected.
Qed.

End Authorized.

Lemma login_authorized env fuel s :
  authorized s →
  wp (_login env fuel) (fun _ => authorized) (fun _ => authorized) True s.
Proof.
  revert s. induction fuel as [|fuel IH]; intros s H; [exact Logic.I|].
  apply login_body_authorized; [|exact H].
  intros s0 H0. by apply IH, authorized_disconnected.
Qed.

Lemma req_authorized env fuel url method params data s :
  authorized s →
  wp (_req env fuel url method params data)
     (fun _ => authorized) (fun _ => authorized) True s.
Proof.
  intros H. apply req_body_authorized; [|exact H].
  intros s0 H0. by apply login_authorized, authorized_disconnected.
Qed.

Lemma handleTraining_authorized env fuel ticks assistantId s :
  authorized s →
  wp (_handleTraining env fuel ticks assistantId)
     (fun _ => authorized) (fun _ => authorized) True s.
Proof.
  intros H. unfold _handleTraining. repeat wp_step.
  match goal with |- wp _ _ _ _ ?x => assert (authorized x) as Hx by exact H; revert Hx;
    generalize x end.
  induction ticks as [|ticks IH]; intros s0 H0; [exact Logic.I|].
  simpl. repeat wp_step; [|exact H0].
  unfold tick. wp_step. unfold _trainingStatus. wp_step.
  eapply wp_mono; [by apply req_authorized| |done..].
  intros req s1 H1. wp_step; [by wp_step|]. wp_step; [|done].
  destruct (branch v).
  - repeat wp_step. by apply IH.
  - repeat wp_step. by apply IH.
  - unfold _trainAssistant. repeat wp_step.
    eapply wp_mono; [by apply req_authorized| |done..].
    intros ? s2 Hs2. repeat wp_step. by apply IH.
  - unfold _trainAssistant. repeat wp_step.
    eapply wp_mono; [by apply req_authorized| |done..].
    intros ? s2 Hs2. repeat wp_step. by apply IH.
  - by repeat wp_step.
Qed.

(** X3.  Whenever the session is marked as connected, the Authorization
    header is [JWT] followed by the persisted [console_token].  A manager
    just created has this property, and every state in which [onStart],
    [login], [_login], [_req], [_logout] or [download] ends, by return or
    by exception, has it if the state they started from had it. *)
Theorem connected_sessions_send_the_persisted_token env fuel s :
  authorized s →
  wp (onStart env fuel) (fun _ => authorized) (fun _ => authorized) True s ∧
  wp (login env fuel) (fun _ => authorized) (fun _ => authorized) True s ∧
  wp (_login env fuel) (fun _ => authorized) (fun _ => authorized) True s ∧
  (∀ url method params data,
     wp (_req env fuel url method params data)
        (fun _ => authorized) (fun _ => authorized) True s) ∧
  wp (_logout env fuel) (fun _ => authorized) (fun _ => authorized) True s ∧
  (∀ ticks assistantId,
     wp (download env fuel ticks assistantId)
        (fun _ => authorized) (fun _ => authorized) True s).
Proof.
  intros H. repeat split.
  - unfold onStart, loginCredentialsAreConfigured. repeat wp_step; try done.
    + intros _. fields. by rewrite lookup_insert_eq.
    + by apply login_authorized.
  - unfold login. repeat wp_step; [done|]. by apply login_authorized.
  - by apply login_authorized.
  - intros. by apply req_authorized.
  - unfold _logout. wp_step. unfold user_id. repeat wp_step; [|done].
    eapply wp_mono; [by apply req_authorized| |done..].
    intros req s1 H1. repeat wp_step. by apply authorized_disconnected.
  - intros ticks assistantId. unfold download. repeat wp_step.
    eapply wp_mono; [by apply handleTraining_authorized| |intros; by repeat wp_step|done].
    intros ? s1 H1. wp_step.
    eapply wp_mono; [by apply req_authorized| |intros; by repeat wp_step|done].
    intros req s2 H2. unfold write_bytes. by repeat wp_step.
Qed.

(** X3 on a run: a login that succeeds from a manager just created. *)
Lemma connected_sessions_send_the_persisted_token_witness :
  authorized fresh ∧
  authorized (state_of (_login granting_server 1 fresh) fresh) ∧
  _connected (state_of (_login granting_server 1 fresh) fresh) = true.
Proof.
  assert (authorized fresh) as H by (by apply authorized_disconnected).
  split; [exact H|split; [|reflexivity]].
  destruct (connected_sessions_send_the_persisted_token granting_server 1 fresh H)
    as (_ & _ & Hl & _).
  unfold wp in Hl.
  assert (_login granting_server 1 fresh =
          Returned tt (state_of (_login granting_server 1 fresh) fresh)) as E
    by (vm_compute; reflexivity).
  rewrite E in Hl. exact Hl.
Defined.

(** ** Starting the manager *)

(** X4.  What a successful login persists is what [onStart] restores.
    After a login that is accepted and granted an access token whose
    token is not empty, a manager created on the persisted configuration
    (whatever its service and its Alice configuration) is started without
    a single request: it is connected, its Authorization header is the
    one the login ended with, and its user has the id and e-mail of the
    user the login got. *)
Theorem login_persists_what_onStart_restores
    env fuel s token user accessToken tok alias env' fuel' aliceConf' projectId :
  (_tries s < 3)%Z →
  auth_accepted env s token user →
  exchange_granted env s token user accessToken →
  accessToken !! "token" = Some tok →
  accessToken !! "alias" = Some alias →
  tok ≠ "" →
  ∃ s1 s2,
    _login env (S fuel) s = Returned tt s1 ∧
    onStart env' fuel' (init (snipsConf s1) aliceConf' projectId) = Returned tt s2 ∧
    _connected s2 = true ∧
    _headers s2 !! "Authorization" = _headers s1 !! "Authorization" ∧
    _headers s2 !! "Authorization" = Some ("JWT " +:+ tok) ∧
    _user s2 = Some user ∧
    sent s2 = [] ∧
    snipsConf s2 = snipsConf s1.
Proof.
  intros Ht Ha He Htok Hal Hne.
  pose proof (login_success env (_login env fuel) s token user accessToken tok alias
                Ht Ha He Htok Hal) as Hlogin.
  destruct (logged_in_credentials env token user tok alias s) as (Ct & _ & Cu & Ce).
  set (s1 := logged_in env token user tok alias s) in *.
  exists s1, (restored (init (snipsConf s1) aliceConf' projectId)).
  split; [exact Hlogin|].
  assert (truthy tok = true) as Htruthy.
  { unfold truthy. by destruct (String.eqb_spec tok ""). }
  set (s0 := init (snipsConf s1) aliceConf' projectId).
  assert (snipsConf s0 = snipsConf s1) as Hconf by reflexivity.
  assert (default "" (snipsConf s0 !! ("project-alice", "console_token")) = tok) as Hc.
  { by rewrite Hconf, Ct. }
  split; [|repeat split].
  - unfold onStart, bind, getSnipsConfiguration, gets, modify.
    rewrite Hc, Htruthy. unfold restored. by rewrite Hc.
  - unfold restored. fields. rewrite Hc, lookup_insert_eq.
    subst s1. unfold logged_in. fields. by rewrite lookup_insert_eq.
  - unfold restored. fields. by rewrite Hc, lookup_insert_eq.
  - unfold restored. fields. rewrite Hconf, Cu, Ce. by destruct user.
Qed.

(** X4 on a run: a login against [granting_server], then a start. *)
Lemma login_persists_what_onStart_restores_witness :
  ∃ s1 s2,
    _login granting_server 1 fresh = Returned tt s1 ∧
    onStart failing_server 0 (init (snipsConf s1) ∅ "a1") = Returned tt s2 ∧
    _connected s2 = true ∧
    _headers s2 !! "Authorization" = Some "JWT T" ∧
    _user s2 = Some alice.
Proof.
  destruct (login_persists_what_onStart_restores granting_server 0 fresh "RAW" alice
              (<["alias" := "A"]> (<["token" := "T"]> ∅)) "T" "A"
              failing_server 0 ∅ "a1")
    as (s1 & s2 & H1 & H2 & H3 & _ & H5 & H6 & _).
  - vm_compute. reflexivity.
  - exists (auth_reply "RAW" alice). repeat split.
  - exists (token_reply 201 (<["alias" := "A"]> (<["token" := "T"]> ∅))). repeat split.
  - reflexivity.
  - reflexivity.
  - discriminate.
  - exists s1, s2. repeat split; assumption.
Defined.

(** X5.  [onStart] with no persisted token (the key missing or empty).
    When the login or the password is missing or empty in the Alice
    configuration, the manager is made inactive and nothing else happens:
    no request is sent and it stays not connected; otherwise [onStart] is
    a [_login]. *)
Theorem onStart_without_token env fuel s :
  default "" (snipsConf s !! ("project-alice", "console_token")) = "" →
  (default "" (aliceConf s !! "snipsConsoleLogin") = "" ∨
   default "" (aliceConf s !! "snipsConsolePassword") = "" →
   onStart env fuel s = Returned tt (set_isActive false s)) ∧
  (default "" (aliceConf s !! "snipsConsoleLogin") ≠ "" →
   default "" (aliceConf s !! "snipsConsolePassword") ≠ "" →
   onStart env fuel s = _login env fuel s).
Proof.
  intros Htok.
  assert (∀ x, truthy x = false ↔ x = "") as Hfalsy.
  { intros x. unfold truthy. destruct (String.eqb_spec x ""); split; done. }
  unfold onStart, loginCredentialsAreConfigured, bind, getSnipsConfiguration,
    getAliceConfigByName, gets, modify, ret.
  rewrite Htok. simpl. split.
  - intros [H|H]; apply Hfalsy in H; rewrite H; [done|by rewrite andb_false_r].
  - intros H1 H2.
    destruct (truthy (default "" (aliceConf s !! "snipsConsoleLogin"))) eqn:E1;
      [|by apply Hfalsy in E1].
    destruct (truthy (default "" (aliceConf s !! "snipsConsolePassword"))) eqn:E2;
      [done|by apply Hfalsy in E2].
Qed.

(** X5 on two managers: one with nothing configured, one with a login. *)
Lemma onStart_without_token_witness :
  onStart granting_server 1 (init ∅ ∅ "a1") = Returned tt (set_isActive false (init ∅ ∅ "a1")) ∧
  onStart granting_server 1 fresh = _login granting_server 1 fresh.
Proof.
  split.
  - destruct (onStart_without_token granting_server 1 (init ∅ ∅ "a1")) as [H _].
    + vm_compute. reflexivity.
    + apply H. left. vm_compute. reflexivity.
  - destruct (onStart_without_token granting_server 1 fresh) as [_ H].
    + vm_compute. reflexivity.
    + apply H; vm_compute; discriminate.
Defined.

(** ** Logging out *)

Lemma unauthorized_blank s : credentials_blank (unauthorized s).
Proof.
  intros key Hkey. unfold credential_keys in Hkey. fields.
  repeat (apply elem_of_cons in Hkey as [->|Hkey]);
    [..|by apply elem_of_nil in Hkey];
    repeat (rewrite lookup_insert_ne by done); apply lookup_insert_eq.
Qed.

(** X6.  A logout that returns has closed the session, whatever the
    service answered to the revocation (even a 401 whose handling logged
    in again and persisted new credentials): the four credential keys
    hold the empty string, there is no Authorization header and the
    session is not connected. *)
Theorem logout_closes_the_session env fuel s :
  match _logout env fuel s with
  | Returned _ s' =>
      credentials_blank s' ∧
      _headers s' !! "Authorization" = None ∧
      _connected s' = false
  | _ => True
  end.
Proof.
  cut (wp (_logout env fuel)
          (fun _ s' => credentials_blank s' ∧ _headers s' !! "Authorization" = None ∧
                       _connected s' = false) anything True s).
  { unfold wp. by destruct (_logout env fuel s). }
  unfold _logout. wp_step. unfold user_id. repeat wp_step; [|done].
  eapply wp_mono; [apply wp_any| |done..].
  intros req s' _. repeat wp_step.
  split; [apply (unauthorized_blank s')|split; [|done]].
  fields. apply lookup_delete_eq.
Qed.

(** X7.  A logout that cannot start or cannot reach the service closes
    nothing.  Without a user it raises before any request and leaves the
    state as it was; when the transport fails on the revocation request
    it raises with nothing changed but the record of that request: the
    Authorization header, the connection flag and the persisted
    credentials stay as they were. *)
Theorem aborted_logout_keeps_the_session env fuel s :
  (_user s = None →
   _logout env fuel s = Raised (AttributeError "userId") s) ∧
  (∀ user,
     _user s = Some user →
     http env (sent s) (revoke_request s user) = ConnectionError →
     _logout env fuel s = Raised RequestException (recorded (revoke_request s user) s) ∧
     _headers (recorded (revoke_request s user) s) = _headers s ∧
     _connected (recorded (revoke_request s user) s) = _connected s ∧
     snipsConf (recorded (revoke_request s user) s) = snipsConf s).
Proof.
  split.
  - intros Hu. apply wp_raised. unfold _logout. wp_step. unfold user_id.
    wp_step. wp_step. rewrite Hu. by wp_step.
  - intros user Hu Hhttp. split; [|done].
    apply wp_raised. unfold _logout. wp_step.
    eapply wp_user_id; [exact Hu|]. repeat wp_step.
    eapply wp_req_error; [exact Hhttp|done].
Qed.

(** X7 on two runs: a manager with no user, and a service that cannot
    be reached. *)
Lemma aborted_logout_keeps_the_session_witness :
  _logout granting_server 1 fresh = Raised (AttributeError "userId") fresh ∧
  _logout {| http := fun _ _ => ConnectionError; uuid4 := fun _ => "";
             disk := fun _ => Written |} 1 (restored fresh) =
    Raised RequestException (recorded (revoke_request (restored fresh) (Build_SnipsConsoleUser "" "")) (restored fresh)).
Proof.
  split.
  - destruct (aborted_logout_keeps_the_session granting_server 1 fresh) as [H _].
    apply H. reflexivity.
  - destruct (aborted_logout_keeps_the_session
                {| http := fun _ _ => ConnectionError; uuid4 := fun _ => "";
                   disk := fun _ => Written |} 1 (restored fresh)) as [_ H].
    destruct (H (Build_SnipsConsoleUser "" "")) as [H1 _].
    + vm_compute. reflexivity.
    + reflexivity.
    + exact H1.
Defined.

(** X8.  Login, then logout.  After a login that is accepted and granted
    an access token, a logout whose request is answered with any status
    but 401 sends exactly one request: a GET to
    [/v1/user/<userId>/accesstoken/<alias>] for the user of the login and
    the alias the login persisted, under the Authorization header [JWT
    <token>]; it returns with the four credential keys blank, the header
    removed and the session not connected. *)
Theorem logout_revokes_the_alias_of_the_login
    env fuel s token user accessToken tok alias req :
  (_tries s < 3)%Z →
  auth_accepted env s token user →
  exchange_granted env s token user accessToken →
  accessToken !! "token" = Some tok →
  accessToken !! "alias" = Some alias →
  let s1 := logged_in env token user tok alias s in
  let rq := {| rq_method := "get";
               rq_url := "https://external-gateway.snips.ai" +:+
                         "/v1/user/" +:+ userId user +:+ "/accesstoken/" +:+ alias;
               rq_params := None; rq_json := None;
               rq_headers := _headers s1 |} in
  http env (sent s1) rq = Reply req →
  status_code req ≠ 401%Z →
  ∃ s2,
    (run _login env (S fuel); _logout env fuel) s = Returned tt s2 ∧
    sent s2 = sent s1 ++ [rq] ∧
    rq_headers rq !! "Authorization" = Some ("JWT " +:+ tok) ∧
    credentials_blank s2 ∧
    _headers s2 !! "Authorization" = None ∧
    _connected s2 = false.
Proof.
  intros Ht Ha He Htok Hal s1 rq Hhttp Hc.
  pose proof (login_success env (_login env fuel) s token user accessToken tok alias
                Ht Ha He Htok Hal) as Hlogin.
  destruct (logged_in_credentials env token user tok alias s) as (_ & Ca & _).
  fold s1 in Hlogin, Ca.
  assert (revoke_request s1 user = rq) as Hrq.
  { unfold revoke_request, request_of, rq. by rewrite Ca. }
  exists (logged_out s1 user). split; [|split; [|split; [|split; [|split]]]].
  - unfold bind at 1. simpl in Hlogin. simpl. rewrite Hlogin.
    apply wp_returned. unfold _logout. wp_step.
    eapply (wp_user_id _ _ _ _ user); [reflexivity|]. repeat wp_step.
    eapply wp_req_reply.
    + change (request_of s1 _ "get" None None) with (revoke_request s1 user).
      rewrite Hrq. exact Hhttp.
    + exact Hc.
    + by repeat wp_step.
  - unfold logged_out. fields. by rewrite Hrq.
  - unfold rq, s1, logged_in. cbn [rq_headers]. fields. apply lookup_insert_eq.
  - apply unauthorized_blank.
  - unfold logged_out. fields. apply lookup_delete_eq.
  - reflexivity.
Qed.

(** X8 on a run: the service grants the login and answers the
    revocation with an empty 200. *)
Lemma logout_revokes_the_alias_of_the_login_witness :
  ∃ s2, (run _login granting_server 1; _logout granting_server 0) fresh = Returned tt s2 ∧
        rq_url <$> last (sent s2) =
          Some "https://external-gateway.snips.ai/v1/user/u1/accesstoken/A" ∧
        _connected s2 = false.
Proof.
  destruct (logout_revokes_the_alias_of_the_login granting_server 0 fresh "RAW" alice
              (<["alias" := "A"]> (<["token" := "T"]> ∅)) "T" "A" (plain 200))
    as (s2 & H1 & H2 & _ & _ & _ & H6).
  - vm_compute. reflexivity.
  - exists (auth_reply "RAW" alice). repeat split.
  - exists (token_reply 201 (<["alias" := "A"]> (<["token" := "T"]> ∅))). repeat split.
  - reflexivity.
  - reflexivity.
  - reflexivity.
  - discriminate.
  - exists s2. split; [exact H1|split; [|exact H6]].
    rewrite H2, last_snoc. reflexivity.
Defined.

(** ** Status fetches and training commands *)

Lemma hundreds_are_four (c : Z) : (c / 100 =? 4)%Z = true ↔ (400 ≤ c ≤ 499)%Z.
Proof.
  rewrite Z.eqb_eq. split; intros H.
  - pose proof (Z.div_mod c 100). pose proof (Z.mod_pos_bound c 100). lia.
  - symmetry. apply (Z.div_unique c 100 4 (c - 400)); lia.
Qed.

(** X9.  [_trainingStatus] treats exactly the statuses 400..499 as
    errors.  When the service answers the fetch with a status from 400 to
    499 other than 401 the function raises, the state changed only by the
    record of the request; a 401 is first handled by [_req] and then
    never yields a status either; with any other status, a 5xx included,
    the body is read: the function returns the training status when the
    body has one and raises when it has none. *)
Theorem status_fetch_raises_on_4xx_only env fuel assistantId s req :
  http env (sent s) (status_request s assistantId) = Reply req →
  let s1 := recorded (status_request s assistantId) s in
  ((400 ≤ status_code req ≤ 499)%Z → status_code req ≠ 401%Z →
   _trainingStatus env fuel assistantId s = Raised (ApiError (status_code req)) s1) ∧
  (status_code req = 401%Z →
   match _trainingStatus env fuel assistantId s with
   | Returned _ _ => False
   | _ => True
   end) ∧
  ((status_code req < 400 ∨ 500 ≤ status_code req)%Z →
   _trainingStatus env fuel assistantId s =
     match json_training req with
     | Some t => Returned t s1
     | None => Raised JSONError s1
     end).
Proof.
  intros Hhttp s1. split; [|split].
  - intros Hc Hne. apply wp_raised. unfold _trainingStatus. wp_step.
    eapply wp_req_reply; [exact Hhttp|exact Hne|].
    apply hundreds_are_four in Hc. rewrite Hc. by wp_step.
  - intros Hc.
    cut (wp (_trainingStatus env fuel assistantId) (fun _ _ => False) anything True s).
    { unfold wp. by destruct (_trainingStatus env fuel assistantId s). }
    unfold _trainingStatus. wp_step.
    eapply wp_req_unauthorized; [exact Hhttp|exact Hc|].
    eapply wp_mono; [apply wp_any| |done..].
    intros ? s2 _. cbv beta.
    assert ((status_code req / 100 =? 4)%Z = true) as ->
      by (apply hundreds_are_four; lia).
    by wp_step.
  - intros Hc. unfold _trainingStatus, bind, _req. rewrite req_eval.
    change (request_of s _ "get" None None) with (status_request s assistantId).
    rewrite Hhttp.
    destruct (Z.eqb_spec (status_code req) 401) as [E|_]; [lia|].
    destruct (status_code req / 100 =? 4)%Z eqn:E4;
      [apply hundreds_are_four in E4; lia|].
    by destruct (json_training req).
Qed.

(** X9 on three answers: a 404, a 500 with a status in its body, a 401. *)
Lemma status_fetch_raises_on_4xx_only_witness :
  _trainingStatus (scripted [Reply (plain 404)]) 1 "a1" fresh =
    Raised (ApiError 404) (recorded (status_request fresh "a1") fresh) ∧
  _trainingStatus
    (scripted [Reply {| status_code := 500; headers := ∅; json_user := None;
                        json_token := None;
                        json_training := Some (status true false false false);
                        content := "" |}]) 1 "a1" fresh =
    Returned (status true false false false) (recorded (status_request fresh "a1") fresh).
Proof.
  split.
  - destruct (status_fetch_raises_on_4xx_only (scripted [Reply (plain 404)]) 1 "a1" fresh
                (plain 404) eq_refl) as (H & _).
    apply H; [split|]; discriminate.
  - destruct (status_fetch_raises_on_4xx_only
                (scripted [Reply {| status_code := 500; headers := ∅; json_user := None;
                        json_token := None;
                        json_training := Some (status true false false false);
                        content := "" |}]) 1 "a1" fresh _ eq_refl) as (_ & _ & H).
    apply H. right. discriminate.
Defined.

(** X10.  [_trainAssistant] does not look at the answer.  Whatever
    status other than 401 the service gives to a training command (a 404
    or a 500 as well as a 200), the function returns normally, having
    sent one POST to [/v2/training/assistant/<id>] whose body names the
    training type; nothing else changes, the events of the thread
    manager in particular. *)
Theorem training_command_ignores_the_answer
    env fuel assistantId trainingType s req :
  http env (sent s) (train_request s assistantId trainingType) = Reply req →
  status_code req ≠ 401%Z →
  _trainAssistant env fuel assistantId trainingType s =
    Returned tt (recorded (train_request s assistantId trainingType) s) ∧
  rq_method (train_request s assistantId trainingType) = "post" ∧
  command_of (train_request s assistantId trainingType) =
    Some (SnipsTrainingType_value trainingType) ∧
  events (recorded (train_request s assistantId trainingType) s) = events s.
Proof.
  intros Hhttp Hc. split; [|split; [done|split; [|done]]].
  - apply wp_returned. unfold _trainAssistant. wp_step.
    eapply wp_req_reply; [exact Hhttp|exact Hc|]. by wp_step.
  - unfold command_of, train_request, request_of. simpl. apply lookup_insert_eq.
Qed.

(** X10 on a run: the command is answered 500. *)
Lemma training_command_ignores_the_answer_witness :
  _trainAssistant (scripted [Reply (plain 500)]) 1 "a1" NLU fresh =
    Returned tt (recorded (train_request fresh "a1" NLU) fresh).
Proof.
  destruct (training_command_ignores_the_answer (scripted [Reply (plain 500)]) 1 "a1" NLU
              fresh (plain 500) eq_refl) as (H & _).
  - discriminate.
  - exact H.
Defined.

(** ** The lock of the poll loop *)

Lemma lock_held_stable n : stable (lock_held n).
Proof. by split. Qed.

Lemma poll_lock env fuel ticks assistantId n s :
  lock_held n s →
  wp (poll env fuel ticks assistantId)
     (fun _ s' => events s' !! "TrainingAssistantLock" = Some false ∧
                  clears "TrainingAssistantLock" s' = S n)
     (fun _ => lock_held n) True s.
Proof.
  revert s. induction ticks as [|ticks IH]; intros s H; [exact Logic.I|].
  cbn [poll]. wp_step. wp_step. destruct H as [Hflag Hn]. rewrite Hflag.
  change (default false (Some true)) with true. cbv iota.
  wp_step. unfold tick. wp_step.
  eapply wp_mono;
    [apply (trainingStatus_keeps env _ fuel assistantId s (lock_held_stable n)); by split
    | |by intros ?? []|done].
  intros t s1 H1. destruct (branch t).
  - wp_step. destruct ticks as [|ticks]; [exact Logic.I|].
    cbn [poll]. wp_step. wp_step. fields. rewrite lookup_insert_eq.
    change (default false (Some false)) with false. cbv iota. wp_step.
    split; [apply lookup_insert_eq|]. destruct H1 as [_ <-].
    unfold clears. fields.
    rewrite filter_app, filter_cons_True, filter_nil, length_app by done.
    simpl. lia.
  - wp_step. by apply IH.
  - unfold _trainAssistant. wp_step.
    eapply wp_mono; [by apply (req_keeps env _ (lock_held_stable n))| |by intros ?? []|done].
    intros ? s2 H2. wp_step. by apply IH.
  - unfold _trainAssistant. wp_step.
    eapply wp_mono; [by apply (req_keeps env _ (lock_held_stable n))| |by intros ?? []|done].
    intros ? s2 H2. wp_step. by apply IH.
  - by wp_step.
Qed.

(** X11.  The lock 'TrainingAssistantLock' tells how [_handleTraining]
    ended.  A run that returns has cleared the lock, once; a run that
    ends in an exception (a failed status fetch, a transport error) has
    never cleared it and leaves it set. *)
Theorem training_lock_tells_the_outcome env fuel ticks assistantId s :
  match _handleTraining env fuel ticks assistantId s with
  | Returned _ s' =>
      events s' !! "TrainingAssistantLock" = Some false ∧
      clears "TrainingAssistantLock" s' = S (clears "TrainingAssistantLock" s)
  | Raised _ s' =>
      events s' !! "TrainingAssistantLock" = Some true ∧
      clears "TrainingAssistantLock" s' = clears "TrainingAssistantLock" s
  | Unfinished => True
  end.
Proof.
  cut (wp (_handleTraining env fuel ticks assistantId)
          (fun _ s' => events s' !! "TrainingAssistantLock" = Some false ∧
                       clears "TrainingAssistantLock" s' =
                         S (clears "TrainingAssistantLock" s))
          (fun _ => lock_held (clears "TrainingAssistantLock" s)) True s).
  { unfold wp. by destruct (_handleTraining env fuel ticks assistantId s). }
  unfold _handleTraining. repeat wp_step.
  apply poll_lock. split; [|done]. fields. apply lookup_insert_eq.
Qed.

(** ** What the download writes *)

(** The temporary file is out of reach of requests, logins and polls. *)
Lemma tmpfile_poll_stable f : poll_stable (fun s => tmpfile s = f).
Proof. by split; [split|..]. Qed.

(** What [_req] returns is what the service answered to its request. *)
Lemma req_returns_the_answer env login url method params data s req s' :
  _req_body env login url method params data s = Returned req s' →
  http env (sent s) (request_of s url method params data) = Reply req.
Proof.
  rewrite req_eval.
  destruct (http env (sent s) (request_of s url method params data)) as [|r]; [done|].
  destruct (status_code r =? 401)%Z; [|by intros [= -> _]].
  destruct (login _); [by intros [= -> _]|done..].
Qed.

(** X12.  [download] changes the temporary file only by the write of
    the downloaded body.  A run that returns [True] leaves in the file
    exactly the body the service answered to the download request, and the
    disk took all of it.  A run that returns [False] leaves the file as it
    was, unless the write itself failed after the file was opened: then
    the file holds the bytes written before the failure, a prefix of that
    body, and whatever was in the file is lost. *)
Theorem download_writes_only_on_success env fuel ticks assistantId s :
  match download env fuel ticks assistantId s with
  | Returned true s' =>
      ∃ s1 req,
        _handleTraining env fuel ticks assistantId s = Returned tt s1 ∧
        http env (sent s1) (download_request s1 assistantId) = Reply req ∧
        disk env (content req) = Written ∧
        tmpfile s' = Some (content req)
  | Returned false s' =>
      tmpfile s' = tmpfile s ∨
      ∃ s1 req n,
        _handleTraining env fuel ticks assistantId s = Returned tt s1 ∧
        http env (sent s1) (download_request s1 assistantId) = Reply req ∧
        disk env (content req) = WriteFails n ∧
        tmpfile s' = Some (substring 0 n (content req))
  | _ => True
  end.
Proof.
  pose proof (handleTraining_keeps env _ fuel assistantId ticks s
                (tmpfile_poll_stable (tmpfile s)) eq_refl) as Hk.
  unfold wp in Hk. unfold download, try_except. unfold bind at 1.
  destruct (_handleTraining env fuel ticks assistantId s) as [[] s1|e s1|];
    [|by left; destruct Hk|done].
  unfold bind at 1.
  pose proof (req_keeps env _ (tmpfile_poll_stable (tmpfile s)) fuel
                ("/v3/assistant/" +:+ assistantId +:+ "/download") "get" None None
                s1 Hk) as Hr.
  unfold wp in Hr.
  destruct (_req env fuel ("/v3/assistant/" +:+ assistantId +:+ "/download")
              "get" None None s1) as [req s2|e s2|] eqn:Hreq;
    [|by left; destruct Hr|done].
  apply req_returns_the_answer in Hreq.
  unfold bind at 1, write_bytes.
  destruct (disk env (content req)) as [|n|] eqn:Hd.
  - by left.
  - right. by exists s1, req, n.
  - by exists s1, req.
Qed.

(** X13.  [download] does not look at the status of the bundle.  Once
    the training has ended Done, whatever status other than 401 the
    service gives to the download request (a 404 or a 500 as well as a
    200), the task writes the body of the answer.  When the disk takes it
    all, the body is the temporary file and the task returns [True].  When
    the open fails, the task broadcasts the failure and returns [False],
    the file as the training left it.  When the write fails after the
    open, the task does the same and the file holds only the bytes
    written before the failure. *)
Theorem download_ignores_the_status env fuel ticks assistantId s s1 req :
  _handleTraining env fuel ticks assistantId s = Returned tt s1 →
  http env (sent s1) (download_request s1 assistantId) = Reply req →
  status_code req ≠ 401%Z →
  let s2 := recorded (download_request s1 assistantId) s1 in
  let signalled s := set_cleared (cleared s ++ ["SnipsAssistantDownload"])
                       (set_events (<["SnipsAssistantDownload" := false]> (events s)) s) in
  let failed s := signalled (set_broadcasts
                               (broadcasts s ++ ["onSnipsAssistantDownloadFailed"]) s) in
  (disk env (content req) = Written →
   download env fuel ticks assistantId s =
     Returned true (signalled (set_tmpfile (Some (content req)) s2))) ∧
  (disk env (content req) = OpenFails →
   download env fuel ticks assistantId s = Returned false (failed s2)) ∧
  (∀ n, disk env (content req) = WriteFails n →
   download env fuel ticks assistantId s =
     Returned false (failed (set_tmpfile (Some (substring 0 n (content req))) s2))).
Proof.
  intros Htrain Hhttp Hc s2 signalled failed.
  assert (wp (_handleTraining env fuel ticks assistantId)
             (fun _ t => t = s1) (fun _ _ => False) False s) as Hwp.
  { unfold wp. by rewrite Htrain. }
  split; [|split]; [intros Hw|intros Hw|intros n Hw];
    apply wp_returned; unfold download; wp_step; wp_step;
    (eapply wp_mono; [exact Hwp| |done..]); intros ? ? ->; wp_step;
    (eapply wp_req_reply; [exact Hhttp|exact Hc|]);
    unfold write_bytes; rewrite Hw; by repeat wp_step.
Qed.

(** X13 on two runs: the service reports the training done and answers
    the download with a 404 and a body; the disk takes the body, or it is
    full after three bytes. *)
Lemma download_ignores_the_status_witness :
  (∃ s', download (bundle_server Written) 1 2 "a1" fresh = Returned true s' ∧
         tmpfile s' = Some "Not Found") ∧
  (∃ s', download (bundle_server (WriteFails 3)) 1 2 "a1" fresh = Returned false s' ∧
         tmpfile s' = Some "Not" ∧
         broadcasts s' = ["onSnipsAssistantDownloadFailed"]).
Proof.
  split.
  - destruct (download_ignores_the_status (bundle_server Written) 1 2 "a1" fresh
                (state_of (_handleTraining (bundle_server Written) 1 2 "a1" fresh) fresh)
                not_found) as [H _].
    + vm_compute. reflexivity.
    + vm_compute. reflexivity.
    + discriminate.
    + eexists. split; [apply H; reflexivity|reflexivity].
  - destruct (download_ignores_the_status (bundle_server (WriteFails 3)) 1 2 "a1" fresh
                (state_of (_handleTraining (bundle_server (WriteFails 3)) 1 2 "a1" fresh) fresh)
                not_found) as (_ & _ & H).
    + vm_compute. reflexivity.
    + vm_compute. reflexivity.
    + discriminate.
    + eexists. split; [apply (H 3%nat); reflexivity|]. split; reflexivity.
Defined.

(** ** Listing the assistants *)

(** X14.  [_listAssistants] needs a user and does not look at the
    status.  Without a user it raises before any request, the state
    untouched.  With a user it sends one GET to [/v3/assistant] whose
    body is the user's id; whatever status other than 401 the answer has,
    the function returns the assistants of its body, and raises when the
    body has none. *)
Theorem listing_assistants_needs_a_user
    (Assistants : Type) (json_assistants : Response → option Assistants) env fuel s :
  (_user s = None →
   _listAssistants Assistants json_assistants env fuel s =
     Raised (AttributeError "userId") s) ∧
  (∀ user req,
     _user s = Some user →
     let rq := request_of s "/v3/assistant" "get" None
                 (Some (<["userId" := userId user]> ∅)) in
     http env (sent s) rq = Reply req →
     status_code req ≠ 401%Z →
     _listAssistants Assistants json_assistants env fuel s =
       match json_assistants req with
       | Some l => Returned l (recorded rq s)
       | None => Raised JSONError (recorded rq s)
       end).
Proof.
  split.
  - intros Hu. apply wp_raised. unfold _listAssistants. wp_step. unfold user_id.
    wp_step. wp_step. rewrite Hu. by wp_step.
  - intros user req Hu rq Hhttp Hc.
    destruct (json_assistants req) as [l|] eqn:Hl.
    + apply wp_returned. unfold _listAssistants. wp_step.
      eapply wp_user_id; [exact Hu|]. wp_step.
      eapply wp_req_reply; [exact Hhttp|exact Hc|]. rewrite Hl. unfold orraise. by wp_step.
    + apply wp_raised. unfold _listAssistants. wp_step.
      eapply wp_user_id; [exact Hu|]. wp_step.
      eapply wp_req_reply; [exact Hhttp|exact Hc|]. rewrite Hl. unfold orraise. by wp_step.
Qed.

(** X14 on two managers, the assistants read as the content of the
    answer: one with no user, one started on persisted credentials. *)
Lemma listing_assistants_needs_a_user_witness :
  _listAssistants string (fun req => Some (content req)) granting_server 1 fresh =
    Raised (AttributeError "userId") fresh ∧
  _listAssistants string (fun req => Some (content req)) (scripted [Reply (plain 500)]) 1
    (restored fresh) =
    Returned ""
      (recorded (request_of (restored fresh) "/v3/assistant" "get" None
                   (Some (<["userId" := ""]> ∅))) (restored fresh)).
Proof.
  split.
  - destruct (listing_assistants_needs_a_user string (fun req => Some (content req))
                granting_server 1 fresh) as [H _].
    apply H. reflexivity.
  - destruct (listing_assistants_needs_a_user string (fun req => Some (content req))
                (scripted [Reply (plain 500)]) 1 (restored fresh)) as [_ H].
    apply (H (Build_SnipsConsoleUser "" "") (plain 500)).
    + vm_compute. reflexivity.
    + reflexivity.
    + discriminate.
Defined.

(** ** Logins that are refused *)

(** One refused login, as [login()] runs it. *)
Lemma refused_login_step env fuel s :
  always_refuses env → _connected s = false → (_tries s < 3)%Z →
  login env (S fuel) s = Returned tt (set_connected false (auth_sent s)).
Proof.
  intros Henv Hc Ht. destruct (Henv (sent s) (auth_request s)) as (req & Hhttp & H2 & H4).
  unfold login, bind, gets. rewrite Hc. simpl.
  by apply (refused_login env _ s req).
Qed.

(** X15.  Three refused logins, then one that gives up.  Against a
    service that refuses every authentication (a status that is neither
    200 nor 401), four calls of [login()] from a counter at 0 send three
    requests, not four: the fourth call sends nothing and puts the
    counter back to 0, so that a fifth call tries again.  The session
    stays not connected and the persisted configuration is untouched. *)
Theorem fourth_login_gives_up env fuel s :
  always_refuses env →
  _connected s = false →
  _tries s = 0%Z →
  ∃ s3 s4,
    (run login env (S fuel); run login env (S fuel); login env (S fuel)) s =
      Returned tt s3 ∧
    length (sent s3) = (length (sent s) + 3)%nat ∧ _tries s3 = 3%Z ∧
    login env (S fuel) s3 = Returned tt s4 ∧
    sent s4 = sent s3 ∧ _tries s4 = 0%Z ∧
    _connected s4 = false ∧ snipsConf s4 = snipsConf s.
Proof.
  intros Henv Hc Ht.
  set (s1 := set_connected false (auth_sent s)).
  set (s2 := set_connected false (auth_sent s1)).
  set (s3 := set_connected false (auth_sent s2)).
  assert (login env (S fuel) s = Returned tt s1) as H1
    by (apply refused_login_step; [done..|lia]).
  assert (login env (S fuel) s1 = Returned tt s2) as H2
    by (apply refused_login_step; [done..|subst s1; unfold auth_sent; fields; lia]).
  assert (login env (S fuel) s2 = Returned tt s3) as H3
    by (apply refused_login_step; [done..|subst s2 s1; unfold auth_sent; fields; lia]).
  exists s3, (set_tries 0 s3). split; [|split; [|split; [|split]]].
  - unfold bind. by rewrite H1, H2, H3.
  - subst s3 s2 s1. unfold auth_sent. fields. rewrite !length_app. simpl. lia.
  - subst s3 s2 s1. unfold auth_sent. fields. lia.
  - unfold login, bind, gets. simpl. apply login_body_gives_up.
    subst s3 s2 s1. unfold auth_sent. fields. lia.
  - done.
Qed.

(** X15 on a run against a service that answers everything with a 403. *)
Lemma fourth_login_gives_up_witness :
  ∃ s3 s4,
    (run login forbidding_server 1; run login forbidding_server 1;
     login forbidding_server 1) fresh = Returned tt s3 ∧
    login forbidding_server 1 s3 = Returned tt s4 ∧
    sent s4 = sent s3 ∧ length (sent s3) = 3%nat.
Proof.
  destruct (fourth_login_gives_up forbidding_server 0 fresh)
    as (s3 & s4 & H1 & H2 & _ & H4 & H5 & _).
  - intros history rq. exists (plain 403). repeat split; discriminate.
  - reflexivity.
  - reflexivity.
  - exists s3, s4. split; [exact H1|split; [exact H4|split; [exact H5|exact H2]]].
Defined.

(** ** A service that answers 401 to everything *)

Lemma unauthorized_closed s : closed (unauthorized s).
Proof.
  split; [done|split; [|apply unauthorized_blank]]. fields. apply lookup_delete_eq.
Qed.

(** A login started [k] tries below the bound sends [k] requests, each
    one answered 401 and followed by a nested login, until the login that
    gives up. *)
Lemma login_under_401 env k :
  always_unauthorized env →
  ∀ fuel s,
    (k < fuel)%nat → (_tries s = 3 - Z.of_nat k)%Z → (k ≤ 3)%nat → closed s →
    wp (_login env fuel)
       (fun _ s' => length (sent s') = (length (sent s) + k)%nat ∧
                    _tries s' = 0%Z ∧ closed s')
       (fun _ _ => False) False s.
Proof.
  intros Henv. induction k as [|k IH]; intros fuel s Hf Ht Hk Hs.
  - destruct fuel as [|fuel]; [lia|]. unfold wp. simpl.
    rewrite login_body_gives_up by lia. split; [simpl; lia|done].
  - destruct fuel as [|fuel]; [lia|]. simpl.
    destruct (Henv (sent s) (auth_request s)) as (req & Hhttp & Hc).
    unfold _login_body. repeat wp_step.
    { match goal with H : (3 <? _)%Z = true |- _ =>
        apply Z.ltb_lt in H; simpl in H; lia end. }
    eapply wp_req_unauthorized; [exact Hhttp|exact Hc|].
    eapply wp_mono; [apply (IH fuel)| |done..].
    + lia.
    + fields. lia.
    + lia.
    + apply unauthorized_closed.
    + intros ? s' (Hlen & Htries & Hclosed). rewrite Hc. simpl. wp_step.
      split; [|split; [done|]].
      * fields. rewrite Hlen, length_app. simpl. lia.
      * destruct Hclosed as (_ & Hh & Hb). by split.
Qed.

(** X16.  Against a service that answers every request with a 401, a
    request sent through [_req] from a counter at 0 does end: the 401
    handling logs in, each login is answered 401 and logs in again, and
    the fourth login gives up.  Four requests are sent in all (the
    request and three authentications), the 401 the request got is what
    [_req] returns, the counter is back to 0 and nothing is left of a
    session. *)
Theorem request_under_401_gives_up env fuel url method params data s :
  always_unauthorized env →
  (4 ≤ fuel)%nat →
  _tries s = 0%Z →
  ∃ req s',
    http env (sent s) (request_of s url method params data) = Reply req ∧
    _req env fuel url method params data s = Returned req s' ∧
    length (sent s') = (length (sent s) + 4)%nat ∧
    _tries s' = 0%Z ∧
    closed s'.
Proof.
  intros Henv Hf Ht.
  destruct (Henv (sent s) (request_of s url method params data)) as (req & Hhttp & Hc).
  exists req.
  cut (wp (_req env fuel url method params data)
          (fun r s' => r = req ∧ length (sent s') = (length (sent s) + 4)%nat ∧
                       _tries s' = 0%Z ∧ closed s')
          (fun _ _ => False) False s).
  { unfold wp. destruct (_req env fuel url method params data s) as [r s'| |]; [|done..].
    intros (-> & H). by exists s'. }
  eapply wp_req_unauthorized; [exact Hhttp|exact Hc|].
  eapply wp_mono; [apply (login_under_401 env 3 Henv fuel)| |done..].
  - lia.
  - fields. lia.
  - lia.
  - apply unauthorized_closed.
  - intros ? s' (Hlen & Htries & Hclosed). split; [done|split; [|done]].
    fields. rewrite Hlen, length_app. simpl. lia.
Qed.

(** X16 on a run: a request by a manager just created. *)
Lemma request_under_401_gives_up_witness :
  ∃ s', _req rejecting_server 4 "/v3/assistant" "get" None None fresh =
          Returned (plain 401) s' ∧
        length (sent s') = 4%nat ∧ _tries s' = 0%Z.
Proof.
  destruct (request_under_401_gives_up rejecting_server 4 "/v3/assistant" "get" None None fresh)
    as (req & s' & H1 & H2 & H3 & H4 & _).
  - intros history rq. by exists (plain 401).
  - repeat constructor.
  - reflexivity.
  - exists s'. injection H1 as <-. split; [exact H2|split; [exact H3|exact H4]].
Defined.

(** * PocketSphinxASR *)

Lemma decode_chunks_trace decoder timeout k chunks inSpeech calls done_ :
  (done_ = [] → inSpeech = false) →
  (done_ ≠ [] → inSpeech = get_in_speech decoder calls) →
  ∃ processed,
    processed `prefix_of` chunks ∧ Forall (fun c => c ≠ "") processed ∧
    let '(calls', result) := decode_chunks decoder timeout k chunks inSpeech calls in
    (calls' = calls ++ map ProcessRaw processed ∧ result = None) ∨
    (∃ before chunk,
       processed = before ++ [chunk] ∧ done_ ++ before ≠ [] ∧
       get_in_speech decoder (calls ++ map ProcessRaw before) = true ∧
       get_in_speech decoder (calls ++ map ProcessRaw processed) = false ∧
       calls' = calls ++ map ProcessRaw processed ++ [EndUtt] ∧
       result = hyp decoder calls').
Proof.
  revert k inSpeech calls done_.
  induction chunks as [|chunk chunks IH]; intros k inSpeech calls done_ H0 H1.
  - exists []. split; [done|split; [done|]]. simpl. left. by rewrite app_nil_r.
  - simpl. destruct (timeout k || String.eqb chunk "") eqn:Hstop.
    + exists []. split; [apply prefix_nil|split; [done|]]. left. by rewrite app_nil_r.
    + apply orb_false_iff in Hstop as [_ Hne].
      assert (chunk ≠ "") as Hchunk by (by destruct (String.eqb_spec chunk "")).
      set (calls1 := calls ++ [ProcessRaw chunk]).
      assert (∀ b, b = get_in_speech decoder calls1 →
                ∃ processed, processed `prefix_of` chunk :: chunks ∧
                  Forall (fun c => c ≠ "") processed ∧
                  let '(calls', result) :=
                    decode_chunks decoder timeout (S k) chunks b calls1 in
                  (calls' = calls ++ map ProcessRaw processed ∧ result = None) ∨
                  (∃ before chunk0,
                     processed = before ++ [chunk0] ∧ done_ ++ before ≠ [] ∧
                     get_in_speech decoder (calls ++ map ProcessRaw before) = true ∧
                     get_in_speech decoder (calls ++ map ProcessRaw processed) = false ∧
                     calls' = calls ++ map ProcessRaw processed ++ [EndUtt] ∧
                     result = hyp decoder calls')) as Hgo.
      { intros b Hb.
        destruct (IH (S k) b calls1 (done_ ++ [chunk])) as (p & Hp & Hf & Hr).
        - intros E. by destruct done_.
        - done.
        - exists (chunk :: p). split; [by apply prefix_cons|split; [by constructor|]].
          destruct (decode_chunks decoder timeout (S k) chunks b calls1) as [calls' r].
          destruct Hr as [[-> ->]|(bef & c & -> & Hnn & Ht & Hf' & -> & ->)].
          + left. split; [|done]. unfold calls1. by rewrite <- app_assoc.
          + right. exists (chunk :: bef), c. unfold calls1 in *.
            rewrite <- !app_assoc in *. simpl in *.
            repeat split; try done. }
      destruct (Bool.eqb (get_in_speech decoder calls1) inSpeech) eqn:Heq; simpl.
      * apply Hgo. symmetry. by apply Bool.eqb_prop.
      * destruct (get_in_speech decoder calls1) eqn:Hin; simpl; [by apply Hgo|].
        exists [chunk]. split; [apply prefix_cons, prefix_nil|split; [by repeat constructor|]].
        right. exists [], chunk. simpl. rewrite app_nil_r.
        destruct inSpeech; [|done].
        assert (done_ ≠ []) as Hd by (intros E; by specialize (H0 E)).
        repeat split; try done.
        -- rewrite app_nil_r. symmetry. by apply H1.
        -- unfold calls1. by rewrite <- app_assoc.
Qed.

(** The two ways [decodeStream] can end. *)
Lemma decodeStream_cases decoder timeout strip recorder calls :
  ∃ processed,
    processed `prefix_of` generator recorder ∧
    Forall (fun c => c ≠ "") processed ∧
    ((decodeStream decoder timeout strip recorder calls =
        (calls ++ StartUtt :: map ProcessRaw processed, Decodes None)) ∨
     (∃ calls',
        utterance_ended decoder calls processed calls' ∧
        decodeStream decoder timeout strip recorder calls =
          (calls', Decodes (result_of strip recorder <$> hyp decoder calls')))).
Proof.
  destruct (decode_chunks_trace decoder timeout 0 (generator recorder) false
              (calls ++ [StartUtt]) []) as (processed & Hp & Hf & H); [done..|].
  exists processed. split; [done|split; [done|]]. unfold decodeStream.
  destruct (decode_chunks decoder timeout 0 (generator recorder) false
              (calls ++ [StartUtt])) as [calls' result].
  destruct H as [[-> ->]|(before & chunk & -> & Hne & Ht & Hs & -> & ->)].
  - left. by rewrite <- app_assoc.
  - right. rewrite <- !app_assoc in *. simpl in *.
    eexists. split.
    + exists before, chunk. repeat split; try done.
    + by destruct (hyp decoder _).
Qed.

(** X17.  What [decodeStream] asks of the decoder.  After starting the
    utterance it hands the decoder chunks of the recorder, in order and
    from the first one, none of them empty, and nothing else, except that
    it may end the utterance, once, as its last call. *)
Theorem decoder_gets_the_chunks_in_order decoder timeout strip recorder calls :
  ∃ processed ended,
    processed `prefix_of` generator recorder ∧
    Forall (fun c => c ≠ "") processed ∧
    (decodeStream decoder timeout strip recorder calls).1 =
      calls ++ StartUtt :: map ProcessRaw processed ++
        (if ended : bool then [EndUtt] else []).
Proof.
  destruct (decodeStream_cases decoder timeout strip recorder calls)
    as (processed & Hp & Hf & [H|(calls' & (b & c & _ & _ & _ & _ & ->) & H)]).
  - exists processed, false. rewrite H. by rewrite app_nil_r.
  - exists processed, true. by rewrite H.
Qed.

(** X18.  A result needs speech, then silence.  When [decodeStream]
    returns a result, the decoder heard speech after some chunk and
    silence after the last chunk it was given, the utterance was ended
    right after that chunk, and the result is made of the decoder's
    hypothesis at that point: its text stripped, its probability, the
    session of the recorder. *)
Theorem result_needs_speech_then_silence decoder timeout strip recorder calls r :
  (decodeStream decoder timeout strip recorder calls).2 = Decodes (Some r) →
  ∃ processed h,
    processed `prefix_of` generator recorder ∧
    utterance_ended decoder calls processed
      (decodeStream decoder timeout strip recorder calls).1 ∧
    hyp decoder (decodeStream decoder timeout strip recorder calls).1 = Some h ∧
    r = {| text := strip (hypstr h); result_session := session recorder;
           likelihood := prob h |}.
Proof.
  destruct (decodeStream_cases decoder timeout strip recorder calls)
    as (processed & Hp & Hf & [H|(calls' & Hu & H)]); rewrite H; simpl.
  - intros [=].
  - intros Hr. destruct (hyp decoder calls') as [h|] eqn:Hh; [|done].
    exists processed, h. injection Hr as <-. by repeat split.
Qed.

(** X18 on a run: speech after the first chunk, silence after the second. *)
Lemma result_needs_speech_then_silence_witness :
  decodeStream two_chunk_decoder (fun _ => false) (fun s => s) three_chunks [] =
    ([StartUtt; ProcessRaw "a"; ProcessRaw "b"; EndUtt],
     Decodes (Some {| text := " hello "; result_session := "session1";
                      likelihood := (-3) |})) ∧
  ∃ processed h,
    processed `prefix_of` ["a"; "b"; "c"] ∧
    hyp two_chunk_decoder
      (decodeStream two_chunk_decoder (fun _ => false) (fun s => s) three_chunks []).1 = Some h.
Proof.
  split; [vm_compute; reflexivity|].
  destruct (result_needs_speech_then_silence two_chunk_decoder (fun _ => false)
              (fun s => s) three_chunks []
              {| text := " hello "; result_session := "session1"; likelihood := (-3) |})
    as (processed & h & Hp & _ & Hh & _).
  - vm_compute. reflexivity.
  - exists processed, h. split; [exact Hp|exact Hh].
Defined.

(** X19.  Silence yields nothing and leaves the utterance open.  If the
    decoder hears no speech after any of the chunks it may be given,
    [decodeStream] returns [None] and never ends the utterance it
    started. *)
Theorem silence_leaves_the_utterance_open decoder timeout strip recorder calls :
  (∀ chunks, chunks ≠ [] → chunks `prefix_of` generator recorder →
             get_in_speech decoder (calls ++ StartUtt :: map ProcessRaw chunks) = false) →
  ∃ processed,
    processed `prefix_of` generator recorder ∧
    decodeStream decoder timeout strip recorder calls =
      (calls ++ StartUtt :: map ProcessRaw processed, Decodes None).
Proof.
  intros Hdeaf.
  destruct (decodeStream_cases decoder timeout strip recorder calls)
    as (processed & Hp & Hf & [H|(calls' & (b & c & -> & Hb & Ht & _) & _)]).
  - by exists processed.
  - rewrite Hdeaf in Ht; [done|exact Hb|]. by eapply prefix_app_l.
Qed.

(** X19 on a run: a decoder that never hears speech. *)
Lemma silence_leaves_the_utterance_open_witness :
  ∃ processed,
    processed `prefix_of` ["a"; "b"; "c"] ∧
    decodeStream deaf_decoder (fun _ => false) (fun s => s) three_chunks [] =
      (StartUtt :: map ProcessRaw processed, Decodes None).
Proof.
  destruct (silence_leaves_the_utterance_open deaf_decoder (fun _ => false)
              (fun s => s) three_chunks []) as (processed & Hp & H).
  - reflexivity.
  - exists processed. split; [exact Hp|exact H].
Defined.

Lemma decode_chunks_empty_chunk decoder timeout k before rest inSpeech calls :
  decode_chunks decoder timeout k (before ++ "" :: rest) inSpeech calls =
  decode_chunks decoder timeout k before inSpeech calls.
Proof.
  revert k inSpeech calls. induction before as [|c before IH]; intros k inSpeech calls.
  - simpl. by rewrite orb_true_r.
  - simpl. rewrite !IH. reflexivity.
Qed.

Lemma decode_chunks_timeout decoder timeout k n chunks inSpeech calls :
  timeout (k + n)%nat = true →
  decode_chunks decoder timeout k chunks inSpeech calls =
  decode_chunks decoder timeout k (take n chunks) inSpeech calls.
Proof.
  revert k chunks inSpeech calls. induction n as [|n IH]; intros k chunks inSpeech calls H.
  - rewrite Nat.add_0_r in H. destruct chunks; [done|]. simpl. by rewrite H.
  - destruct chunks as [|c chunks]; [done|]. simpl.
    rewrite <- !(IH (S k)) by (by rewrite <- Nat.add_succ_comm in H). reflexivity.
Qed.

(** X20.  Where the decoding stops.  The chunks that follow an empty
    chunk are never looked at: decoding a stream is decoding what comes
    before its first empty chunk.  And once the timeout is set at the
    test made before the chunk of index [n], none of the chunks from that
    index on is looked at. *)
Theorem decoding_stops_at_empty_chunk_or_timeout decoder timeout strip session_ calls :
  (∀ before rest,
     decodeStream decoder timeout strip
       {| generator := before ++ "" :: rest; session := session_ |} calls =
     decodeStream decoder timeout strip
       {| generator := before; session := session_ |} calls) ∧
  (∀ n chunks,
     timeout n = true →
     decodeStream decoder timeout strip
       {| generator := chunks; session := session_ |} calls =
     decodeStream decoder timeout strip
       {| generator := take n chunks; session := session_ |} calls).
Proof.
  split.
  - intros before rest. unfold decodeStream. simpl.
    by rewrite decode_chunks_empty_chunk.
  - intros n chunks H. unfold decodeStream. simpl.
    by rewrite (decode_chunks_timeout decoder timeout 0 n chunks).
Qed.

(** X20 on a run: the timeout is set before the second chunk. *)
Lemma decoding_stops_at_empty_chunk_or_timeout_witness :
  decodeStream two_chunk_decoder (fun k => Nat.eqb k 1) (fun s => s) three_chunks [] =
    ([StartUtt; ProcessRaw "a"], Decodes None).
Proof.
  destruct (decoding_stops_at_empty_chunk_or_timeout two_chunk_decoder
              (fun k => Nat.eqb k 1) (fun s => s) "session1" []) as [_ H].
  unfold three_chunks. rewrite (H 1%nat ["a"; "b"; "c"] eq_refl).
  vm_compute. reflexivity.
Defined.
